(** * IMDB Movie Finder: the data engine of [movieapp.py]

    A shallow embedding of the three data steps of [movieapp.py]
    ([load_data], [filter_movies], and the ranking, paging and summary part
    of [main]) together with the properties the specification states about
    them.

    Conventions of the embedding.
    - A pandas data frame is the list of its rows, in index order.
    - A missing cell (NaN) is [None].
    - A string is a sequence of characters with code points below 256.
    - A rating cell is a rational number, the decimal of the source;
      [Series.mean] reads it as the nearest binary64 number. The arithmetic
      of [Series.mean] is binary64 arithmetic, in the order in which numpy
      adds (pandas without the optional bottleneck package).
    - [Runtime_Minutes] and, when no year is missing, [Decade] are int64
      columns; the arithmetic on [Released_Year] wraps around.
    - The columns have the types of the catalog: [Runtime] and [Genre] are
      text, [Released_Year] and [IMDB_Rating] numeric. A source whose
      [Runtime] column is numeric or whose [Released_Year] column is text
      is outside the embedding.
    - [pd.read_csv] is outside the embedding: [load_data] receives the frame
      it returned, or [None] when it raised. *)

From Stdlib Require Import List ZArith QArith Qround Bool Ascii String Lia.
From Stdlib Require Import Sorted Permutation Morphisms Lqa Qabs SpecFloat.
Import ListNotations.

Local Open Scope Z_scope.

(** ** Python strings *)

Module PyStr.

(** [str.isspace] on one character: TAB, LF, VT, FF, CR, the separators
    FS, GS, RS, US, the space, NEL and the no-break space. *)
Definition isspace (c : ascii) : bool :=
  let n := nat_of_ascii c in
  (((9 <=? n) && (n <=? 13)) || ((28 <=? n) && (n <=? 32))
   || (n =? 133) || (n =? 160))%nat.

(** The regular expression class [\d]. *)
Definition isdigit (c : ascii) : bool :=
  let n := nat_of_ascii c in ((48 <=? n) && (n <=? 57))%nat.

Definition digit_value (c : ascii) : Z := Z.of_nat (nat_of_ascii c) - 48.

Fixpoint lstrip (s : string) : string :=
  match s with
  | EmptyString => EmptyString
  | String c t => if isspace c then lstrip t else s
  end.

Fixpoint rstrip (s : string) : string :=
  match s with
  | EmptyString => EmptyString
  | String c t =>
      match rstrip t with
      | EmptyString => if isspace c then EmptyString else String c EmptyString
      | r => String c r
      end
  end.

(** [s.strip()] *)
Definition strip (s : string) : string := rstrip (lstrip s).

(** [s.split(sep)] for a one-character separator: one piece more than
    there are separators, empty pieces kept. *)
Fixpoint split (sep : ascii) (s : string) : list string :=
  match s with
  | EmptyString => [EmptyString]
  | String c t =>
      if Ascii.eqb c sep then EmptyString :: split sep t
      else match split sep t with
           | h :: r => String c h :: r
           | [] => [String c EmptyString]
           end
  end.

(** [needle in hay] *)
Fixpoint contains (needle hay : string) : bool :=
  prefix needle hay
  || match hay with
     | EmptyString => false
     | String _ t => contains needle t
     end.

(** The longest run of digits at the start of [s]. *)
Fixpoint take_digits (s : string) : string :=
  match s with
  | EmptyString => EmptyString
  | String c t => if isdigit c then String c (take_digits t) else EmptyString
  end.

(** [re.search('(\d+)', s)]: the first maximal run of digits, if any. *)
Fixpoint search_digits (s : string) : option string :=
  match s with
  | EmptyString => None
  | String c t =>
      if isdigit c then Some (String c (take_digits t)) else search_digits t
  end.

Fixpoint int_of_digits_acc (acc : Z) (s : string) : Z :=
  match s with
  | EmptyString => acc
  | String c t => int_of_digits_acc (10 * acc + digit_value c) t
  end.

(** [int(s)] for a string of digits. *)
Definition int_of_digits (s : string) : Z := int_of_digits_acc 0 s.

(** Insertion into a sorted list without duplicates, by code points. *)
Fixpoint insert_sorted (x : string) (l : list string) : list string :=
  match l with
  | [] => [x]
  | y :: r =>
      match String.compare x y with
      | Lt => x :: l
      | Eq => l
      | Gt => y :: insert_sorted x r
      end
  end.

(** [sorted(list(set(l)))] *)
Definition sorted_set (l : list string) : list string :=
  fold_right insert_sorted [] l.

End PyStr.

(** ** Data model *)

(** One row of the frame [pd.read_csv] returns, restricted to the columns
    the engine reads. [Runtime] and [Genre] are text columns,
    [Released_Year] and [IMDB_Rating] numeric ones, as in the catalog; the
    type rules out the sources on which [.str] or [//] raise because a
    column has another type. *)
Record CsvRow : Type := mkCsvRow {
  csv_Series_Title : string;
  csv_Released_Year : option Z;
  csv_Runtime : option string;
  csv_Genre : option string;
  csv_IMDB_Rating : option Q
}.

(** One row of the frame [load_data] returns and [filter_movies] reads: the
    columns of the source and the two derived ones. *)
Record Row : Type := mkRow {
  Series_Title : string;
  Released_Year : option Z;
  Runtime : option string;
  Genre : option string;
  IMDB_Rating : option Q;
  Runtime_Minutes : option Z;
  Decade : option Z
}.

Definition DataFrame : Type := list Row.

(** ** Exceptions inside [load_data] *)

Inductive PyExc : Type :=
| ReadError          (* [pd.read_csv] raised, or a column is missing *)
| IntCastingNaNError (* [astype(int)] met a NaN *)
| OverflowError.     (* [astype(int)] met an integer outside int64 *)

Definition result (A : Type) : Type := (PyExc + A)%type.

Definition ret {A : Type} (a : A) : result A := inr a.
Definition raise {A : Type} (e : PyExc) : result A := inl e.
Definition bind {A B : Type} (m : result A) (k : A -> result B) : result B :=
  match m with
  | inl e => inl e
  | inr a => k a
  end.

Notation "x <- m ;; k" := (bind m (fun x => k))
  (at level 61, m at next level, right associativity).

Fixpoint mapM {A B : Type} (f : A -> result B) (l : list A) : result (list B) :=
  match l with
  | [] => ret []
  | a :: r => b <- f a ;; bs <- mapM f r ;; ret (b :: bs)
  end.

(** ** [load_data] *)

Definition int64_max : Z := 2 ^ 63 - 1.

(** [Series.str.extract('(\d+)')] on one cell: NaN stays NaN, a text
    without digits gives NaN. *)
Definition str_extract (cell : option string) : option string :=
  match cell with
  | None => None
  | Some s => PyStr.search_digits s
  end.

(** [astype(int)] on one cell of the extracted column. *)
Definition astype_int (cell : option string) : result Z :=
  match cell with
  | None => raise IntCastingNaNError
  | Some d =>
      let n := PyStr.int_of_digits d in
      if n <=? int64_max then ret n else raise OverflowError
  end.

(** A result of int64 arithmetic: it wraps around. *)
Definition wrap_int64 (z : Z) : Z := (z + 2 ^ 63) mod 2 ^ 64 - 2 ^ 63.

(** [(df['Released_Year'] // 10) * 10] on one cell of the int64 column:
    floor division, then a multiplication that wraps. When a year is
    missing the column is float64, whose arithmetic gives the same decade
    for years of magnitude up to [2 ^ 53]. *)
Definition decade_of (year : option Z) : option Z :=
  option_map (fun y => wrap_int64 ((y / 10) * 10)) year.

(** [[g.strip() for g in genres_str.split(',')]] *)
Definition genre_tokens (genres_str : string) : list string :=
  map PyStr.strip (PyStr.split "," genres_str).

(** The loop over [df['Genre'].dropna()]. *)
Definition all_genres (rows : list CsvRow) : list string :=
  flat_map (fun r => match csv_Genre r with
                     | Some s => genre_tokens s
                     | None => []
                     end) rows.

Definition add_columns (r : CsvRow) (minutes : Z) : Row :=
  {| Series_Title := csv_Series_Title r;
     Released_Year := csv_Released_Year r;
     Runtime := csv_Runtime r;
     Genre := csv_Genre r;
     IMDB_Rating := csv_IMDB_Rating r;
     Runtime_Minutes := Some minutes;
     Decade := decade_of (csv_Released_Year r) |}.

(** The body of the [try] block. *)
Definition load_data_body (source : option (list CsvRow))
  : result (DataFrame * list string) :=
  rows <- match source with
          | None => raise ReadError
          | Some rows => ret rows
          end ;;
  minutes <- mapM (fun r => astype_int (str_extract (csv_Runtime r))) rows ;;
  ret (map (fun rm => add_columns (fst rm) (snd rm)) (combine rows minutes),
       PyStr.sorted_set (all_genres rows)).

(** [load_data()]: [except Exception] reports the error and returns
    [(None, None)]. *)
Definition load_data (source : option (list CsvRow))
  : option (DataFrame * list string) :=
  match load_data_body source with
  | inl _ => None
  | inr v => Some v
  end.

(** ** [filter_movies] *)

(** Truth value of a list in an [if]: empty is false. *)
Definition truthy_list {A : Type} (l : list A) : bool :=
  match l with
  | [] => false
  | _ :: _ => true
  end.

(** Truth value of [max_runtime] in an [if]: [None] and [0] are false. *)
Definition truthy_int (n : option Z) : bool :=
  match n with
  | None => false
  | Some m => negb (m =? 0)
  end.

(** The lambda applied to the [Genre] column:
    [any(genre in str(x) for genre in selected_genres) if pd.notna(x) else False] *)
Definition genre_mask (selected_genres : list string) (x : option string) : bool :=
  match x with
  | Some s => existsb (fun genre => PyStr.contains genre s) selected_genres
  | None => false
  end.

(** [filtered_df['Runtime_Minutes'] <= max_runtime] on one cell: a
    comparison with NaN is false. *)
Definition runtime_mask (max_runtime : option Z) (x : option Z) : bool :=
  match x, max_runtime with
  | Some minutes, Some m => minutes <=? m
  | _, _ => false
  end.

Definition cell_eqb (a b : option Z) : bool :=
  match a, b with
  | Some x, Some y => x =? y
  | None, None => true
  | _, _ => false
  end.

(** [Series.isin(values)] on one cell; NaN is found among values that
    contain NaN. *)
Definition isin (x : option Z) (values : list (option Z)) : bool :=
  existsb (cell_eqb x) values.

(** [genre_step_selects_rows df selected_genres]: the genre step is given a
    boolean mask. On a frame without rows [apply] returns a mask of no
    boolean type, which selects columns instead of rows; the embedding of
    [filter_movies] follows the call on the other frames. *)
Definition genre_step_selects_rows (df : DataFrame)
    (selected_genres : list string) : Prop :=
  df <> [] \/ selected_genres = [].

Definition filter_movies (df : DataFrame) (selected_genres : list string)
    (max_runtime : option Z) (selected_decades : list (option Z)) : DataFrame :=
  let filtered_df := df in
  let filtered_df :=
    if truthy_list selected_genres
    then filter (fun r => genre_mask selected_genres (Genre r)) filtered_df
    else filtered_df in
  let filtered_df :=
    if truthy_int max_runtime
    then filter (fun r => runtime_mask max_runtime (Runtime_Minutes r)) filtered_df
    else filtered_df in
  let filtered_df :=
    if truthy_list selected_decades
    then filter (fun r => isin (Decade r) selected_decades) filtered_df
    else filtered_df in
  filtered_df.

(** ** Ranking, paging and summary statistics (the second half of [main]) *)

(** The sort key [IMDB_Rating] under [ascending=False]: larger ratings
    first, NaN last. [rating_ge a b] says that [a] may stand before [b]. *)
Definition rating_ge (a b : option Q) : Prop :=
  match a, b with
  | _, None => True
  | Some x, Some y => (y <= x)%Q
  | None, Some _ => False
  end.

Definition rating_geb (a b : option Q) : bool :=
  match a, b with
  | _, None => true
  | Some x, Some y => Qle_bool y x
  | None, Some _ => false
  end.

(** Two rows tie when neither rating is strictly before the other. *)
Definition tie (a b : Row) : Prop :=
  rating_ge (IMDB_Rating a) (IMDB_Rating b) /\
  rating_ge (IMDB_Rating b) (IMDB_Rating a).

Definition by_rating_desc (a b : Row) : Prop :=
  rating_ge (IMDB_Rating a) (IMDB_Rating b).

(** [DataFrame.sort_values('IMDB_Rating', ascending=False)] is a call into
    pandas with the default [kind='quicksort']. The pandas documentation
    names [mergesort] and [stable] as the only stable kinds, so for this
    call it promises the order of the keys and nothing about rows with
    equal keys. The embedding takes the call by that contract: some
    function that permutes the rows into descending order of the key. *)
Class SortValues : Type := {
  sort_values : DataFrame -> DataFrame;
  sort_values_perm : forall df, Permutation df (sort_values df);
  sort_values_sorted : forall df, Sorted by_rating_desc (sort_values df)
}.

(** Insertion sort driven by a test [before x y] that tells whether the
    new row [x] goes in front of [y]. *)
Section InsertionSort.

Variable before : Row -> Row -> bool.

Fixpoint insert_row (x : Row) (l : DataFrame) : DataFrame :=
  match l with
  | [] => [x]
  | y :: r => if before x y then x :: l else y :: insert_row x r
  end.

Definition insertion_sort (df : DataFrame) : DataFrame :=
  fold_right insert_row [] df.

End InsertionSort.

(** A row goes in front of the rows it ties with: ties keep frame order. *)
Definition before_stable (x y : Row) : bool :=
  rating_geb (IMDB_Rating x) (IMDB_Rating y).

(** The stable descending sort, the order the specification asks for. *)
Definition stable_sort (df : DataFrame) : DataFrame :=
  insertion_sort before_stable df.

(** The entries of the selectbox are [10], [25], [50], [100] and ["All"];
    [Count] carries any integer so that [head] can be followed off that
    list too. *)
Inductive DisplayCount : Type :=
| Count (n : Z)
| All.


(** [df.head(n)], that is [df.iloc[:n]]: the first [n] rows, or all but the
    last [-n] rows when [n] is negative. *)
Definition head (n : Z) (df : DataFrame) : DataFrame :=
  if 0 <=? n then firstn (Z.to_nat n) df
  else firstn (Z.to_nat (Z.of_nat (List.length df) + n)) df.

Fixpoint somes {A : Type} (l : list (option A)) : list A :=
  match l with
  | [] => []
  | Some a :: r => a :: somes r
  | None :: r => somes r
  end.

Definition Qsum (l : list Q) : Q := fold_right Qplus 0%Q l.

(** The arithmetic mean as the specification means it, in exact
    arithmetic. *)
Definition exact_mean (l : list Q) : Q :=
  (Qsum l / inject_Z (Z.of_nat (List.length l)))%Q.

(** Binary64 numbers and their correctly rounded operations. *)
Module B64.

Definition prec : Z := 53.
Definition emax : Z := 1024.

Definition add : spec_float -> spec_float -> spec_float := SFadd prec emax.
Definition div : spec_float -> spec_float -> spec_float := SFdiv prec emax.

Definition zero : spec_float := S754_zero false.

(** The binary64 number nearest to an integer. *)
Definition of_Z (z : Z) : spec_float := binary_normalize prec emax z 0 false.

(** The binary64 number of a rating cell. *)
Definition of_Q (q : Q) : spec_float :=
  div (of_Z (Qnum q)) (of_Z (Zpos (Qden q))).

(** The value of the finite number with mantissa [m] and exponent [e]. *)
Definition value (m : positive) (e : Z) : Q :=
  match e with
  | Zneg p => Zpos m # (2 ^ p)
  | _ => inject_Z (Zpos m * 2 ^ e)
  end.

End B64.

(** numpy's sum of a float64 array: below 8 elements one running sum; up
    to 128 elements eight running sums over the elements taken eight at a
    time, added up as a tree, then the elements left over; above that the
    array is cut in two near the middle, at a multiple of 8. *)
Fixpoint add_lanes (r l : list spec_float) : list spec_float :=
  match r, l with
  | x :: r', y :: l' => B64.add x y :: add_lanes r' l'
  | _, _ => r
  end.

Fixpoint lanes (blocks : nat) (r l : list spec_float)
  : list spec_float * list spec_float :=
  match blocks with
  | O => (r, l)
  | S b => lanes b (add_lanes r (firstn 8 l)) (skipn 8 l)
  end.

Definition tree8 (r : list spec_float) : spec_float :=
  match r with
  | [r0; r1; r2; r3; r4; r5; r6; r7] =>
      B64.add (B64.add (B64.add r0 r1) (B64.add r2 r3))
              (B64.add (B64.add r4 r5) (B64.add r6 r7))
  | _ => B64.zero
  end.

Definition block_sum (l : list spec_float) : spec_float :=
  let n := List.length l in
  let '(r, rest) := lanes (n / 8 - 1) (firstn 8 l) (skipn 8 l) in
  fold_left B64.add rest (tree8 r).

Fixpoint pairwise_sum (fuel : nat) (l : list spec_float) : spec_float :=
  let n := List.length l in
  if (n <? 8)%nat then fold_left B64.add l B64.zero
  else if (n <=? 128)%nat then block_sum l
  else match fuel with
       | O => B64.zero
       | S f =>
           let n2 := (n / 2 - (n / 2) mod 8)%nat in
           B64.add (pairwise_sum f (firstn n2 l)) (pairwise_sum f (skipn n2 l))
       end.

(** [values.sum()] on a float64 column. *)
Definition numpy_sum (l : list spec_float) : spec_float :=
  B64.add B64.zero (pairwise_sum (List.length l) l).

(** The length of the buffer through which numpy casts. *)
Definition buffersize : nat := Nat.pow 2 13.

(** [values.sum(dtype=float64)] on an int64 column: the cast goes through
    a buffer, and each buffer is summed on its own. *)
Fixpoint buffered_sum (fuel : nat) (acc : spec_float) (l : list spec_float)
  : spec_float :=
  match l, fuel with
  | [], _ => acc
  | _, O => acc
  | _, S f =>
      let chunk := firstn buffersize l in
      buffered_sum f (B64.add acc (pairwise_sum (List.length chunk) chunk))
        (skipn buffersize l)
  end.

(** [the_sum / count if count > 0 else nan], the last step of
    [Series.mean()]; [count] is the number of cells that are not NaN. *)
Definition nanmean (the_sum : spec_float) (count : nat) : spec_float :=
  if (0 <? count)%nat then B64.div the_sum (B64.of_Z (Z.of_nat count))
  else S754_nan.

(** The float64 column [IMDB_Rating] as [mean] sums it: a NaN cell is
    replaced by 0 ([skipna=True]). *)
Definition rating_values (col : list (option Q)) : list spec_float :=
  map (fun c => match c with
                | Some q => B64.of_Q q
                | None => B64.zero
                end) col.

(** [filtered_df['IMDB_Rating'].mean()] *)
Definition rating_mean (col : list (option Q)) : spec_float :=
  nanmean (numpy_sum (rating_values col)) (List.length (somes col)).

Definition runtime_values (col : list (option Z)) : list spec_float :=
  map (fun c => match c with
                | Some z => B64.of_Z z
                | None => B64.zero
                end) col.

Definition is_some {A : Type} (c : option A) : bool :=
  match c with
  | Some _ => true
  | None => false
  end.

(** The sum of the column [Runtime_Minutes]: an int64 column when no cell
    is missing, as in every loaded frame, a float64 column otherwise. *)
Definition runtime_sum (col : list (option Z)) : spec_float :=
  if forallb is_some col
  then buffered_sum (List.length col) B64.zero (runtime_values col)
  else numpy_sum (runtime_values col).

(** [filtered_df['Runtime_Minutes'].mean()] *)
Definition runtime_mean (col : list (option Z)) : spec_float :=
  nanmean (runtime_sum col) (List.length (somes col)).

(** Rounding to the nearest integer, halves to the even one, as the
    [f] presentation type of [format] does. *)
Definition round_half_even (q : Q) : Z :=
  let f := Qfloor q in
  match Qcompare (q - inject_Z f) (1 # 2) with
  | Lt => f
  | Gt => f + 1
  | Eq => if Z.even f then f else f + 1
  end.

(** What a format with the presentation type [f] prints: a sign and the
    rounded magnitude counted in units of the last digit, or [nan], or
    [inf]. *)
Inductive Shown : Type :=
| ShownNumber (negative : bool) (units : Z)
| ShownNan
| ShownInf (negative : bool).

(** The number is rounded at [1 / scale]. *)
Definition format_f (scale : Q) (x : spec_float) : Shown :=
  match x with
  | S754_nan => ShownNan
  | S754_infinity s => ShownInf s
  | S754_zero s => ShownNumber s 0
  | S754_finite s m e => ShownNumber s (round_half_even (B64.value m e * scale))
  end.

(** [f"{x:.1f}"], the magnitude in tenths. *)
Definition format_1f (x : spec_float) : Shown := format_f 10 x.

(** [f"{x:.0f}"], the magnitude in units. *)
Definition format_0f (x : spec_float) : Shown := format_f 1 x.

Definition count_Z (v : Z) (l : list Z) : nat :=
  List.length (filter (Z.eqb v) l).

(** [Series.mode().iloc[0]]: NaN cells are dropped, the most frequent value
    wins and the smallest one among equally frequent values; [None] when
    [mode()] is empty, which prints [N/A]. *)
Definition mode_first (col : list (option Z)) : option Z :=
  let vs := somes col in
  fold_right
    (fun v best =>
       match best with
       | None => Some v
       | Some b =>
           let cv := count_Z v vs in
           let cb := count_Z b vs in
           if ((cb <? cv)%nat || ((cb =? cv)%nat && (v <? b)))%bool
           then Some v else Some b
       end)
    None vs.

(** The four metrics of the summary block. *)
Record Statistics : Type := mkStatistics {
  average_rating : Shown;         (* tenths shown by [.1f] *)
  average_runtime : Shown;        (* minutes shown by [.0f] *)
  most_common_decade : option Z;
  total_movies : nat
}.

(** What [main] puts on the page below the filters. *)
Record ResultPage : Type := mkResultPage {
  found : nat;                     (* "Found N movies matching your criteria" *)
  no_match_warning : bool;
  display_df : DataFrame;
  statistics : option Statistics   (* [None]: no summary block *)
}.

Definition summary (filtered_df : DataFrame) : Statistics :=
  {| average_rating := format_1f (rating_mean (map IMDB_Rating filtered_df));
     average_runtime := format_0f (runtime_mean (map Runtime_Minutes filtered_df));
     most_common_decade := mode_first (map Decade filtered_df);
     total_movies := List.length filtered_df |}.

(** Lines 113 to 202 of [main]: the header, the early return on an empty
    result, the sort, the page and the summary block. *)
Definition rank_and_page `{SortValues} (filtered_df : DataFrame)
    (display_count : DisplayCount) : ResultPage :=
  let n := List.length filtered_df in
  if (n =? 0)%nat then
    {| found := n; no_match_warning := true;
       display_df := []; statistics := None |}
  else
    let filtered_df := sort_values filtered_df in
    let display_df :=
      match display_count with
      | Count k => head k filtered_df
      | All => filtered_df
      end in
    {| found := n; no_match_warning := false;
       display_df := display_df;
       statistics :=
         if (0 <? List.length filtered_df)%nat
         then Some (summary filtered_df) else None |}.

(** The radio button of the runtime preference; the slider of the custom
    ceiling runs from 60 to 300 in steps of 10. *)
Inductive RuntimeOption : Type :=
| AnyLength
| UnderTwoHours
| CustomMax (slider : Z).

Definition max_runtime_of (runtime_option : RuntimeOption) : option Z :=
  match runtime_option with
  | AnyLength => None
  | UnderTwoHours => Some 120
  | CustomMax v => Some v
  end.

(** A run of [main]: it stops after a failed load, otherwise it renders a
    page. *)
Inductive Outcome : Type :=
| Stopped
| Rendered (page : ResultPage).

Definition main `{SortValues} (source : option (list CsvRow))
    (selected_genres : list string) (runtime_option : RuntimeOption)
    (selected_decades : list (option Z)) (display_count : DisplayCount)
  : Outcome :=
  match load_data source with
  | None => Stopped
  | Some (df, _) =>
      Rendered (rank_and_page
                  (filter_movies df selected_genres
                     (max_runtime_of runtime_option) selected_decades)
                  display_count)
  end.

(** ** Notions used to state the properties *)

(** The predicate [filter_movies] applies to one row, all three masks at
    once. *)
Definition passes (selected_genres : list string) (max_runtime : option Z)
    (selected_decades : list (option Z)) (r : Row) : bool :=
  (negb (truthy_list selected_genres) || genre_mask selected_genres (Genre r))
  && (negb (truthy_int max_runtime) || runtime_mask max_runtime (Runtime_Minutes r))
  && (negb (truthy_list selected_decades) || isin (Decade r) selected_decades).

(** [Subseq l1 l2]: [l1] is [l2] with some elements left out, the others in
    their order. *)
Inductive Subseq {A : Type} : list A -> list A -> Prop :=
| Subseq_nil : Subseq [] []
| Subseq_keep : forall x l1 l2, Subseq l1 l2 -> Subseq (x :: l1) (x :: l2)
| Subseq_drop : forall x l1 l2, Subseq l1 l2 -> Subseq l1 (x :: l2).

(** The genre set of a record as the specification defines it: the raw
    field split on commas, the pieces trimmed, the empty ones discarded; a
    missing field has no genre. *)
Definition spec_genres (raw : option string) : list string :=
  match raw with
  | None => []
  | Some s => filter (fun g => negb (String.eqb g EmptyString)) (genre_tokens s)
  end.

(** The genre match of the specification: the genre set of the record
    meets the selected genres. *)
Definition spec_genre_match (selected_genres : list string)
    (raw : option string) : bool :=
  existsb (fun g => existsb (String.eqb g) selected_genres) (spec_genres raw).

(** [occurs_in p s]: the string [p] is a contiguous part of [s]. *)
Definition occurs_in (p s : string) : Prop :=
  exists a b, s = (a ++ p ++ b)%string.

(** The rows whose sort key equals [k]. *)
Definition same_rating (k : option Q) (r : Row) : bool :=
  rating_geb k (IMDB_Rating r) && rating_geb (IMDB_Rating r) k.

(** No two rows of the frame tie on the sort key. *)
Definition NoTies (df : DataFrame) : Prop :=
  ForallOrdPairs (fun a b => ~ tie a b) df.

Definition has_runtime (r : Row) : bool :=
  match Runtime_Minutes r with
  | Some _ => true
  | None => false
  end.

Definition has_rating (r : Row) : bool :=
  match IMDB_Rating r with
  | Some _ => true
  | None => false
  end.

(** Rows for the examples. *)
Definition movie (title : string) (year : Z) (minutes : option Z)
    (genre : string) (rating : Q) : Row :=
  {| Series_Title := title;
     Released_Year := Some year;
     Runtime := None;
     Genre := Some genre;
     IMDB_Rating := Some rating;
     Runtime_Minutes := minutes;
     Decade := decade_of (Some year) |}.

Definition csv_movie (title : string) (year : Z) (runtime genre : string)
    (rating : Q) : CsvRow :=
  {| csv_Series_Title := title;
     csv_Released_Year := Some year;
     csv_Runtime := Some runtime;
     csv_Genre := Some genre;
     csv_IMDB_Rating := Some rating |}.

(** The three records of the end-to-end example of the specification; the
    runtime of the third one is missing. *)
Definition movie_A : Row := movie "A" 1994 (Some 120) "Drama" (9 # 1).
Definition movie_B : Row := movie "B" 2003 (Some 95) "Comedy" (85 # 10).
Definition movie_C : Row := movie "C" 1991 None "Drama, Comedy" (7 # 1).

(** A record rated 7.5. *)
Definition movie_F : Row := movie "F" 2010 (Some 130) "Drama" (75 # 10).

(** Two records with the same rating. *)
Definition movie_D : Row := movie "D" 1999 (Some 100) "Drama" (8 # 1).

(** The end-to-end catalog as [pd.read_csv] returns it. *)
Definition catalog_source : option (list CsvRow) :=
  Some [csv_movie "A" 1994 "120 min" "Drama" (9 # 1);
        csv_movie "B" 2003 "95 min" "Comedy" (85 # 10)].

(** A catalog with the genres [Music] and [Musical]. *)
Definition music_source : option (list CsvRow) :=
  Some [csv_movie "W" 2014 "106 min" "Drama, Music" (85 # 10);
        csv_movie "M" 1952 "103 min" "Musical, Romance" (83 # 10)].

(** The page of an empty result. *)
Definition no_match_page : ResultPage :=
  {| found := 0; no_match_warning := true;
     display_df := []; statistics := None |}.

(** * Properties *)

(** ** The order of the sort key *)

Lemma rating_geb_spec (a b : option Q) :
  rating_geb a b = true <-> rating_ge a b.
Proof.
  destruct a as [x|], b as [y|]; simpl;
    try (split; [intros _; exact I | reflexivity]).
  - apply Qle_bool_iff.
  - split; [discriminate | contradiction].
Qed.

Lemma rating_ge_refl (a : option Q) : rating_ge a a.
Proof. destruct a; simpl; [apply Qle_refl | exact I]. Qed.

Lemma rating_ge_total (a b : option Q) : rating_ge a b \/ rating_ge b a.
Proof.
  destruct a as [x|], b as [y|]; simpl; auto.
  destruct (Qlt_le_dec x y) as [Hlt|Hle]; [right | left]; auto.
  now apply Qlt_le_weak.
Qed.

Lemma rating_ge_trans (a b c : option Q) :
  rating_ge a b -> rating_ge b c -> rating_ge a c.
Proof.
  destruct a as [x|], b as [y|], c as [z|]; simpl; auto; try contradiction.
  intros Hyx Hzy. now apply Qle_trans with y.
Qed.

Lemma rating_geb_false (a b : option Q) :
  rating_geb a b = false -> rating_ge b a.
Proof.
  intros Hf. destruct (rating_ge_total a b) as [H|H]; [|exact H].
  apply rating_geb_spec in H. congruence.
Qed.

#[local] Instance by_rating_desc_trans : Transitive by_rating_desc.
Proof. intros a b c. apply rating_ge_trans. Qed.

(** ** Insertion sort meets the contract of [sort_values] *)

Section InsertionSortFacts.

Variable before : Row -> Row -> bool.
Hypothesis before_true : forall x y, before x y = true -> by_rating_desc x y.
Hypothesis before_false : forall x y, before x y = false -> by_rating_desc y x.

Lemma insert_row_perm (x : Row) (l : DataFrame) :
  Permutation (x :: l) (insert_row before x l).
Proof.
  induction l as [|y r IH]; simpl.
  - apply Permutation_refl.
  - destruct (before x y).
    + apply Permutation_refl.
    + eapply perm_trans; [apply perm_swap|]. now apply perm_skip.
Qed.

Lemma insertion_sort_perm (df : DataFrame) :
  Permutation df (insertion_sort before df).
Proof.
  induction df as [|x r IH]; simpl.
  - apply perm_nil.
  - eapply perm_trans; [apply perm_skip, IH | apply insert_row_perm].
Qed.

Lemma insert_row_hd (x y : Row) (l : DataFrame) :
  by_rating_desc y x -> HdRel by_rating_desc y l ->
  HdRel by_rating_desc y (insert_row before x l).
Proof.
  intros Hyx Hhd. destruct l as [|z r]; simpl.
  - now constructor.
  - destruct (before x z); constructor; auto.
    now inversion Hhd.
Qed.

Lemma insert_row_sorted (x : Row) (l : DataFrame) :
  Sorted by_rating_desc l -> Sorted by_rating_desc (insert_row before x l).
Proof.
  induction 1 as [|y r Hs IH Hhd]; simpl.
  - repeat constructor.
  - destruct (before x y) eqn:Hb.
    + constructor; [now constructor | constructor; auto].
    + constructor; [exact IH | apply insert_row_hd; auto].
Qed.

Lemma insertion_sort_sorted (df : DataFrame) :
  Sorted by_rating_desc (insertion_sort before df).
Proof.
  induction df as [|x r IH]; simpl.
  - constructor.
  - now apply insert_row_sorted.
Qed.

End InsertionSortFacts.

Lemma before_stable_true (x y : Row) :
  before_stable x y = true -> by_rating_desc x y.
Proof. apply rating_geb_spec. Qed.

Lemma before_stable_false (x y : Row) :
  before_stable x y = false -> by_rating_desc y x.
Proof. apply rating_geb_false. Qed.

(** The stable sort is one admissible [sort_values]. *)
Definition StableSort : SortValues :=
  {| sort_values := stable_sort;
     sort_values_perm := insertion_sort_perm before_stable;
     sort_values_sorted :=
       insertion_sort_sorted before_stable before_stable_true before_stable_false |}.

(** [stable_sort] is stable: the rows of one rating leave it in the order
    in which they entered. *)
Lemma insert_row_stable (k : option Q) (x : Row) (l : DataFrame) :
  filter (same_rating k) (insert_row before_stable x l)
  = filter (same_rating k) (x :: l).
Proof.
  induction l as [|y r IH]; [reflexivity|].
  cbn [insert_row]. destruct (before_stable x y) eqn:Hb; [reflexivity|].
  cbn [filter] in IH |- *. rewrite IH.
  destruct (same_rating k x) eqn:Hx, (same_rating k y) eqn:Hy; try reflexivity.
  exfalso. unfold same_rating in Hx, Hy.
  apply andb_true_iff in Hx as [_ Hxk], Hy as [Hky _].
  apply rating_geb_spec in Hxk, Hky.
  pose proof (rating_ge_trans _ _ _ Hxk Hky) as Hxy.
  apply rating_geb_spec in Hxy. unfold before_stable in Hb. congruence.
Qed.

Lemma stable_sort_stable (k : option Q) (df : DataFrame) :
  filter (same_rating k) (stable_sort df) = filter (same_rating k) df.
Proof.
  induction df as [|x r IH]; [reflexivity|].
  unfold stable_sort in *. cbn [insertion_sort fold_right].
  fold (insertion_sort before_stable r).
  rewrite insert_row_stable. cbn [filter]. now rewrite IH.
Qed.

(** ** [filter_movies] as one filter *)

Lemma filter_twice {A : Type} (f g : A -> bool) (l : list A) :
  filter g (filter f l) = filter (fun x => f x && g x) l.
Proof.
  induction l as [|x r IH]; simpl; [reflexivity|].
  destruct (f x); simpl; [destruct (g x)|]; now rewrite IH.
Qed.

Lemma filter_when {A : Type} (c : bool) (f : A -> bool) (l : list A) :
  (if c then filter f l else l) = filter (fun x => negb c || f x) l.
Proof.
  destruct c; simpl; [reflexivity|].
  induction l as [|x r IH]; simpl; congruence.
Qed.

Lemma filter_movies_passes df selected_genres max_runtime selected_decades :
  filter_movies df selected_genres max_runtime selected_decades
  = filter (passes selected_genres max_runtime selected_decades) df.
Proof.
  unfold filter_movies, passes.
  rewrite !filter_when, !filter_twice.
  apply filter_ext. intros r.
  now destruct (negb (truthy_list selected_genres) || genre_mask selected_genres (Genre r)),
    (negb (truthy_int max_runtime) || runtime_mask max_runtime (Runtime_Minutes r)).
Qed.

Lemma filter_length_le {A : Type} (f g : A -> bool) (l : list A) :
  (forall x, In x l -> f x = true -> g x = true) ->
  (List.length (filter f l) <= List.length (filter g l))%nat.
Proof.
  induction l as [|x r IH]; simpl; intros Himp; [lia|].
  assert (Hr : (List.length (filter f r) <= List.length (filter g r))%nat)
    by (apply IH; intros y Hy; apply Himp; now right).
  destruct (f x) eqn:Hf.
  - rewrite (Himp x (or_introl eq_refl) Hf). simpl. lia.
  - destruct (g x); simpl; lia.
Qed.

Lemma filter_Subseq {A : Type} (f : A -> bool) (l : list A) :
  Subseq (filter f l) l.
Proof.
  induction l as [|x r IH]; simpl.
  - constructor.
  - destruct (f x); now constructor.
Qed.

Lemma Subseq_length {A : Type} (l1 l2 : list A) :
  Subseq l1 l2 -> (List.length l1 <= List.length l2)%nat.
Proof. induction 1; simpl; lia. Qed.

Lemma Subseq_In {A : Type} (l1 l2 : list A) (x : A) :
  Subseq l1 l2 -> In x l1 -> In x l2.
Proof.
  induction 1; simpl; intros Hin; auto.
  destruct Hin; auto.
Qed.

Lemma Subseq_NoDup {A : Type} (l1 l2 : list A) :
  Subseq l1 l2 -> NoDup l2 -> NoDup l1.
Proof.
  induction 1 as [|x l1 l2 Hs IH|x l1 l2 Hs IH]; intros Hnd.
  - constructor.
  - inversion Hnd; subst. constructor; auto.
    intros Hin. eauto using Subseq_In.
  - inversion Hnd; auto.
Qed.

Lemma truthy_list_true {A : Type} (l : list A) :
  l <> [] -> truthy_list l = true.
Proof. destruct l; [congruence | reflexivity]. Qed.

Lemma truthy_list_incl {A : Type} (l l' : list A) :
  l <> [] -> incl l l' -> truthy_list l' = true.
Proof.
  destruct l as [|x r]; [congruence|]. intros _ Hincl.
  destruct l'; [|reflexivity]. destruct (Hincl x (or_introl eq_refl)).
Qed.

Lemma existsb_incl {A : Type} (f : A -> bool) (l l' : list A) :
  incl l l' -> existsb f l = true -> existsb f l' = true.
Proof.
  intros Hincl Hex. apply existsb_exists in Hex as [x [Hin Hfx]].
  apply existsb_exists. exists x. auto.
Qed.

Lemma genre_mask_incl (selected selected' : list string) (x : option string) :
  incl selected selected' ->
  genre_mask selected x = true -> genre_mask selected' x = true.
Proof.
  destruct x as [s|]; simpl; [|discriminate]. apply existsb_incl.
Qed.

Lemma runtime_mask_le (m m' : Z) (x : option Z) :
  m' <= m -> runtime_mask (Some m') x = true -> runtime_mask (Some m) x = true.
Proof.
  destruct x as [minutes|]; simpl; [|discriminate].
  rewrite !Z.leb_le. lia.
Qed.

Lemma passes_true_iff sg mr sd r :
  passes sg mr sd r = true <->
  (truthy_list sg = true -> genre_mask sg (Genre r) = true) /\
  (truthy_int mr = true -> runtime_mask mr (Runtime_Minutes r) = true) /\
  (truthy_list sd = true -> isin (Decade r) sd = true).
Proof.
  unfold passes. rewrite !andb_true_iff, !orb_true_iff, !negb_true_iff.
  destruct (truthy_list sg), (truthy_int mr), (truthy_list sd);
    intuition congruence.
Qed.

(** ** Tokens of the genre field occur in it *)

Lemma append_assoc (a b c : string) :
  ((a ++ b) ++ c = a ++ (b ++ c))%string.
Proof. induction a as [|x a IH]; simpl; congruence. Qed.

Lemma append_empty_r (a : string) : (a ++ EmptyString)%string = a.
Proof. induction a as [|x a IH]; simpl; congruence. Qed.

Lemma occurs_in_refl (s : string) : occurs_in s s.
Proof. exists EmptyString, EmptyString. simpl. now rewrite append_empty_r. Qed.

Lemma occurs_in_trans (p q s : string) :
  occurs_in p q -> occurs_in q s -> occurs_in p s.
Proof.
  intros (a & b & ->) (a' & b' & ->).
  exists (a' ++ a)%string, (b ++ b')%string.
  now rewrite !append_assoc.
Qed.

Lemma occurs_in_cons (c : ascii) (p s : string) :
  occurs_in p s -> occurs_in p (String c s).
Proof. intros (a & b & ->). now exists (String c a), b. Qed.

Lemma prefix_append (p b : string) : prefix p (p ++ b) = true.
Proof.
  induction p as [|x p IH]; simpl; [now destruct b|].
  destruct (ascii_dec x x); [exact IH | congruence].
Qed.

Lemma contains_occurs_in (p s : string) :
  occurs_in p s -> PyStr.contains p s = true.
Proof.
  intros (a & b & ->). induction a as [|x a IH].
  - cbn [append]. destruct (p ++ b)%string eqn:E; cbn [PyStr.contains];
      rewrite <- E, prefix_append; reflexivity.
  - cbn [append PyStr.contains]. rewrite IH. apply orb_true_r.
Qed.

Lemma lstrip_occurs_in (s : string) : occurs_in (PyStr.lstrip s) s.
Proof.
  induction s as [|c s IH]; cbn [PyStr.lstrip].
  - apply occurs_in_refl.
  - destruct (PyStr.isspace c);
      [now apply occurs_in_cons | apply occurs_in_refl].
Qed.

Lemma rstrip_prefix (s : string) :
  exists b, s = (PyStr.rstrip s ++ b)%string.
Proof.
  induction s as [|c s [b IH]]; cbn [PyStr.rstrip].
  - now exists EmptyString.
  - destruct (PyStr.rstrip s) as [|y r].
    + destruct (PyStr.isspace c); [now exists (String c s)|].
      exists s. reflexivity.
    + exists b. simpl. f_equal. exact IH.
Qed.

Lemma strip_occurs_in (s : string) : occurs_in (PyStr.strip s) s.
Proof.
  apply occurs_in_trans with (PyStr.lstrip s); [|apply lstrip_occurs_in].
  destruct (rstrip_prefix (PyStr.lstrip s)) as [b Hb].
  now exists EmptyString, b.
Qed.

Lemma split_head_prefix (sep : ascii) (s : string) :
  exists h r b, PyStr.split sep s = h :: r /\ s = (h ++ b)%string.
Proof.
  induction s as [|c s (h & r & b & Hsplit & Hs)]; cbn [PyStr.split].
  - now exists EmptyString, [], EmptyString.
  - destruct (Ascii.eqb c sep).
    + now exists EmptyString, (PyStr.split sep s), (String c s).
    + rewrite Hsplit. exists (String c h), r, b. cbn [append]. now rewrite <- Hs.
Qed.

Lemma split_occurs_in (sep : ascii) (s p : string) :
  In p (PyStr.split sep s) -> occurs_in p s.
Proof.
  revert p. induction s as [|c s IH]; cbn [PyStr.split]; intros p Hin.
  - destruct Hin as [<-|[]]. apply occurs_in_refl.
  - destruct (Ascii.eqb c sep).
    + destruct Hin as [<-|Hin]; [now exists EmptyString, (String c s)|].
      now apply occurs_in_cons, IH.
    + destruct (split_head_prefix sep s) as (h & r & b & Hsplit & Hs).
      rewrite Hsplit in Hin, IH. destruct Hin as [<-|Hin].
      * exists EmptyString, b. cbn [append]. now rewrite <- Hs.
      * apply occurs_in_cons, IH. now right.
Qed.

Lemma genre_token_occurs_in (raw token : string) :
  In token (genre_tokens raw) -> occurs_in token raw.
Proof.
  unfold genre_tokens. intros Hin.
  apply in_map_iff in Hin as (piece & <- & Hpiece).
  apply occurs_in_trans with piece;
    [apply strip_occurs_in | now apply split_occurs_in in Hpiece].
Qed.

(** Every record the token semantics of the specification accepts is
    accepted by the substring test of the code. *)
Lemma spec_genre_match_genre_mask (selected_genres : list string)
    (raw : option string) :
  spec_genre_match selected_genres raw = true ->
  genre_mask selected_genres raw = true.
Proof.
  unfold spec_genre_match, spec_genres. destruct raw as [s|]; [|discriminate].
  intros Hm. apply existsb_exists in Hm as (g & Hg & Hsel).
  apply filter_In in Hg as [Hg _].
  apply existsb_exists in Hsel as (g' & Hg' & Heq).
  apply String.eqb_eq in Heq as <-.
  cbn [genre_mask]. apply existsb_exists. exists g. split; [exact Hg'|].
  now apply contains_occurs_in, genre_token_occurs_in.
Qed.

(** ** The filter engine *)

(** C9. The frame [filter_movies] returns is a subsequence of the frame it
    is given: rows are left out, the rows kept stand in their original
    order, and none is repeated. *)
Theorem filter_movies_subseq df selected_genres max_runtime selected_decades :
  Subseq (filter_movies df selected_genres max_runtime selected_decades) df.
Proof.
  rewrite filter_movies_passes. apply filter_Subseq.
Qed.

(** A frame without repeated rows is filtered into one without repeated
    rows. *)
Lemma filter_movies_NoDup df selected_genres max_runtime selected_decades :
  NoDup df ->
  NoDup (filter_movies df selected_genres max_runtime selected_decades).
Proof. rewrite filter_movies_passes. apply Subseq_NoDup, filter_Subseq. Qed.

(** C7, as stated, fails: with no genre selected every record passes, and
    selecting a first genre removes records; the same for decades. *)
Lemma first_selection_narrows :
  let df := [movie_A; movie_B; movie_C] in
  (List.length (filter_movies df ["Comedy"%string] None [])
   < List.length (filter_movies df [] None []))%nat /\
  (List.length (filter_movies df [] None [Some 2000%Z])
   < List.length (filter_movies df [] None []))%nat.
Proof. vm_compute. split; lia. Qed.

(** C7, amended. Adding genres to a non-empty selection never decreases the
    number of records returned, adding decades to a non-empty selection
    never decreases it, and lowering an active runtime ceiling to another
    non-zero ceiling never increases it. *)
Theorem filter_movies_monotone (df : DataFrame)
    (genres genres' : list string) (decades decades' : list (option Z))
    (m m' : Z) :
  genres <> [] -> incl genres genres' ->
  decades <> [] -> incl decades decades' ->
  m' <> 0 -> m' <= m ->
  (forall max_runtime selected_decades,
      (List.length (filter_movies df genres max_runtime selected_decades)
       <= List.length (filter_movies df genres' max_runtime selected_decades))%nat) /\
  (forall selected_genres max_runtime,
      (List.length (filter_movies df selected_genres max_runtime decades)
       <= List.length (filter_movies df selected_genres max_runtime decades'))%nat) /\
  (forall selected_genres selected_decades,
      (List.length (filter_movies df selected_genres (Some m') selected_decades)
       <= List.length (filter_movies df selected_genres (Some m) selected_decades))%nat).
Proof.
  intros Hg Hgi Hd Hdi Hm' Hle.
  repeat split; intros; rewrite !filter_movies_passes;
    apply filter_length_le; intros r _; rewrite !passes_true_iff;
    intros (Hgen & Hrun & Hdec); repeat split; auto.
  - intros _. apply (genre_mask_incl genres); auto.
    apply Hgen, truthy_list_true, Hg.
  - intros _. apply (existsb_incl _ decades); auto.
    apply Hdec, truthy_list_true, Hd.
  - intros _. apply (runtime_mask_le m m'); auto.
    apply Hrun. simpl. now apply negb_true_iff, Z.eqb_neq.
Qed.

Lemma filter_movies_monotone_witness :
  let df := [movie_A; movie_B; movie_C] in
  (List.length (filter_movies df ["Drama"%string] None [])
   <= List.length (filter_movies df ["Comedy"; "Drama"]%string None []))%nat.
Proof.
  intros df.
  refine (proj1 (filter_movies_monotone df ["Drama"%string]
                   ["Comedy"; "Drama"]%string [Some 1990] [Some 1990; Some 2000]
                   150 100 _ _ _ _ _ _) None []).
  - discriminate.
  - intros g [<-|[]]. right. now left.
  - discriminate.
  - intros d [<-|[]]. now left.
  - lia.
  - lia.
Defined.

(** The runtime predicate under an active ceiling: a record is kept iff it
    passes the other two predicates, its runtime is known and it is at
    most the ceiling. *)
Lemma runtime_filter_active df selected_genres m selected_decades r :
  m <> 0 ->
  In r (filter_movies df selected_genres (Some m) selected_decades) <->
  In r (filter_movies df selected_genres None selected_decades) /\
  exists minutes, Runtime_Minutes r = Some minutes /\ minutes <= m.
Proof.
  intros Hm. rewrite !filter_movies_passes, !filter_In, !passes_true_iff.
  assert (Ht : truthy_int (Some m) = true)
    by (simpl; now apply negb_true_iff, Z.eqb_neq).
  rewrite Ht. simpl truthy_int.
  split.
  - intros (Hin & Hgen & Hrun & Hdec). specialize (Hrun eq_refl).
    destruct (Runtime_Minutes r) as [minutes|] eqn:Hr; simpl in Hrun;
      [|discriminate].
    split; [repeat split; auto; discriminate|].
    exists minutes. split; [reflexivity | now apply Z.leb_le].
  - intros ((Hin & Hgen & _ & Hdec) & minutes & Hr & Hle).
    repeat split; auto. intros _. rewrite Hr. simpl. now apply Z.leb_le.
Qed.

(** Without a ceiling the runtime column is not read. *)
Lemma runtime_filter_unset df selected_genres selected_decades r :
  In r (filter_movies df selected_genres None selected_decades) <->
  In r df /\
  (selected_genres <> [] -> genre_mask selected_genres (Genre r) = true) /\
  (selected_decades <> [] -> isin (Decade r) selected_decades = true).
Proof.
  rewrite filter_movies_passes, filter_In, passes_true_iff. simpl.
  split.
  - intros (Hin & Hgen & _ & Hdec). repeat split; auto.
    + intros Hne. now apply Hgen, truthy_list_true.
    + intros Hne. now apply Hdec, truthy_list_true.
  - intros (Hin & Hgen & Hdec). repeat split; auto; try discriminate.
    + intros Ht. apply Hgen. intros ->. discriminate.
    + intros Ht. apply Hdec. intros ->. discriminate.
Qed.

(** C8. The runtime predicate for every ceiling [main] passes on, which is
    none, 120 or the slider value between 60 and 300, and for every other
    ceiling but 0. Under a ceiling a record is kept exactly when it passes
    the other two predicates, has a runtime and the runtime is at most the
    ceiling, so a record without a runtime is left out however large the
    ceiling; without a ceiling the runtime is not looked at and a record
    without one is kept when it passes the other two predicates. *)
Theorem runtime_predicate df selected_genres max_runtime selected_decades r :
  max_runtime <> Some 0 ->
  match max_runtime with
  | Some m =>
      (In r (filter_movies df selected_genres (Some m) selected_decades) <->
       In r (filter_movies df selected_genres None selected_decades) /\
       exists minutes, Runtime_Minutes r = Some minutes /\ minutes <= m) /\
      (Runtime_Minutes r = None ->
       ~ In r (filter_movies df selected_genres (Some m) selected_decades))
  | None =>
      In r (filter_movies df selected_genres None selected_decades) <->
      In r df /\
      (selected_genres <> [] -> genre_mask selected_genres (Genre r) = true) /\
      (selected_decades <> [] -> isin (Decade r) selected_decades = true)
  end /\
  (forall runtime_option,
      (forall v, runtime_option = CustomMax v -> 60 <= v <= 300) ->
      max_runtime_of runtime_option <> Some 0).
Proof.
  intros Hnz. split.
  - destruct max_runtime as [m|]; [|apply runtime_filter_unset].
    assert (Hm : m <> 0) by congruence.
    split; [now apply runtime_filter_active|].
    intros Hnone Hin.
    apply (runtime_filter_active _ _ _ _ _ Hm) in Hin as [_ (n & Hr & _)].
    congruence.
  - intros [| |v] Hv; cbn; try discriminate.
    intros [= ->]. specialize (Hv 0 eq_refl). lia.
Qed.

Lemma runtime_predicate_witness :
  ~ In movie_C
      (filter_movies [movie_A; movie_B; movie_C] ["Drama"%string] (Some 300) []).
Proof.
  refine (proj2 (proj1 (runtime_predicate [movie_A; movie_B; movie_C]
                          ["Drama"%string] (Some 300) [] movie_C _)) eq_refl).
  discriminate.
Defined.

(** C1 at the selection [Music]. The catalog has a record of the genres
    [Drama] and [Music] and a record of the genres [Musical] and [Romance];
    [Music] is in the vocabulary [load_data] returns. With [Music] selected
    [filter_movies] keeps the second record too, none of whose genres is
    selected, because [Music] occurs inside its raw field. *)
Theorem genre_filter_substring_match :
  exists df genres musical,
    load_data music_source = Some (df, genres) /\
    In "Music"%string genres /\
    In musical (filter_movies df ["Music"%string] None []) /\
    spec_genres (Genre musical) = ["Musical"; "Romance"]%string /\
    spec_genre_match ["Music"%string] (Genre musical) = false.
Proof.
  do 2 eexists.
  exists (add_columns (csv_movie "M" 1952 "103 min" "Musical, Romance" (83 # 10)) 103).
  split; [reflexivity|].
  split; [right; left; reflexivity|].
  split; [right; left; reflexivity|].
  split; reflexivity.
Qed.

(** The sound half of C1: a record of the frame with a selected genre
    among its genre tokens is kept when no other criterion is set. *)
Lemma genre_tokens_match_is_kept df selected_genres r :
  In r df -> spec_genre_match selected_genres (Genre r) = true ->
  In r (filter_movies df selected_genres None []).
Proof.
  intros Hin Hm. apply runtime_filter_unset. split; [exact Hin|].
  split; [|congruence]. intros _. now apply spec_genre_match_genre_mask.
Qed.

(** ** The loader *)

Lemma astype_int_inr (cell : option string) (n : Z) :
  astype_int cell = inr n ->
  exists d, cell = Some d /\ n = PyStr.int_of_digits d /\ n <= int64_max.
Proof.
  destruct cell as [d|]; simpl; [|discriminate].
  destruct (PyStr.int_of_digits d <=? int64_max) eqn:Hle; [|discriminate].
  intros [= <-]. exists d. repeat split. now apply Z.leb_le.
Qed.

Lemma mapM_cons_inr {A B : Type} (f : A -> result B) a l bs :
  mapM f (a :: l) = inr bs ->
  exists b bs', bs = b :: bs' /\ f a = inr b /\ mapM f l = inr bs'.
Proof.
  simpl. unfold bind, ret.
  destruct (f a) as [e|b]; [discriminate|].
  destruct (mapM f l) as [e|bs']; [discriminate|].
  intros [= <-]. now exists b, bs'.
Qed.

Lemma mapM_fails {A B : Type} (f : A -> result B) (l : list A) (a : A) :
  In a l -> (forall b, f a <> inr b) -> forall bs, mapM f l <> inr bs.
Proof.
  induction l as [|x r IH]; simpl; [contradiction|].
  intros [->|Hin] Hfa bs Hm; apply mapM_cons_inr in Hm as (b & bs' & _ & Hb & Hr).
  - now apply (Hfa b).
  - now apply (IH Hin Hfa bs').
Qed.

Lemma load_rows_runtime (rows : list CsvRow) (minutes : list Z) :
  mapM (fun r => astype_int (str_extract (csv_Runtime r))) rows = inr minutes ->
  Forall2
    (fun c r => exists d, str_extract (csv_Runtime c) = Some d /\
                          Runtime_Minutes r = Some (PyStr.int_of_digits d))
    rows
    (map (fun rm => add_columns (fst rm) (snd rm)) (combine rows minutes)).
Proof.
  revert minutes. induction rows as [|c rows IH]; intros minutes Hm.
  - constructor.
  - apply mapM_cons_inr in Hm as (n & ns & -> & Hn & Hr).
    apply astype_int_inr in Hn as (d & Hd & -> & _).
    simpl. constructor; [|now apply IH].
    exists d. now split.
Qed.

Lemma load_data_Some (source : option (list CsvRow)) df genres :
  load_data source = Some (df, genres) ->
  exists rows minutes,
    source = Some rows /\
    mapM (fun r => astype_int (str_extract (csv_Runtime r))) rows = inr minutes /\
    df = map (fun rm => add_columns (fst rm) (snd rm)) (combine rows minutes).
Proof.
  unfold load_data, load_data_body.
  destruct source as [rows|]; simpl; [|discriminate].
  destruct (mapM _ rows) as [e|minutes] eqn:Hm; simpl; [discriminate|].
  intros [= <- _]. now exists rows, minutes.
Qed.

(** C10. A frame that [load_data] returns has a runtime in every row: each
    row carries the integer read from the first run of digits of its
    [Runtime] cell, and so does every row [filter_movies] hands on. A load
    that cannot do this for some row returns no frame. *)
Theorem load_data_runtime_never_null (source : option (list CsvRow)) df genres :
  load_data source = Some (df, genres) ->
  (exists rows,
      source = Some rows /\
      Forall2
        (fun c r => exists d, str_extract (csv_Runtime c) = Some d /\
                              Runtime_Minutes r = Some (PyStr.int_of_digits d))
        rows df) /\
  Forall (fun r => Runtime_Minutes r <> None) df /\
  (forall selected_genres max_runtime selected_decades,
      Forall (fun r => Runtime_Minutes r <> None)
        (filter_movies df selected_genres max_runtime selected_decades)).
Proof.
  intros Hload.
  apply load_data_Some in Hload as (rows & minutes & -> & Hm & ->).
  pose proof (load_rows_runtime rows minutes Hm) as Hall.
  split; [now exists rows|].
  assert (Hdf : Forall (fun r => Runtime_Minutes r <> None)
                  (map (fun rm => add_columns (fst rm) (snd rm))
                     (combine rows minutes))).
  { clear Hm. induction Hall as [|c r cs rs (d & _ & Hr) _ IH];
      constructor; auto. rewrite Hr. discriminate. }
  split; [exact Hdf|].
  intros sg m sd. rewrite filter_movies_passes.
  rewrite Forall_forall in Hdf |- *.
  intros r Hin. apply filter_In in Hin as [Hin _]. now apply Hdf.
Qed.

Lemma load_data_runtime_never_null_witness :
  Forall (fun r => Runtime_Minutes r <> None)
    [add_columns (csv_movie "A" 1994 "142 min" "Drama" (93 # 10)) 142;
     add_columns (csv_movie "B" 1957 "96 min" "Crime, Drama" (9 # 1)) 96].
Proof.
  exact (proj1 (proj2 (load_data_runtime_never_null
                  (Some [csv_movie "A" 1994 "142 min" "Drama" (93 # 10);
                         csv_movie "B" 1957 "96 min" "Crime, Drama" (9 # 1)])
                  _ ["Crime"; "Drama"]%string eq_refl))).
Defined.

(** C2, as stated, fails: one row whose [Runtime] has no digits makes the
    whole load return nothing. *)
Lemma load_data_one_bad_row :
  str_extract (Some "N/A min"%string) = None /\
  load_data (Some [csv_movie "A" 1994 "142 min" "Drama" (93 # 10);
                   csv_movie "B" 1957 "N/A min" "Crime, Drama" (9 # 1)])
  = None.
Proof. split; reflexivity. Qed.

(** C2, amended. When the [Runtime] cell of some row holds no run of
    digits, [load_data] reports the error and returns no frame at all. *)
Theorem load_data_fails_on_unparsable_runtime (rows : list CsvRow) (r : CsvRow) :
  In r rows -> str_extract (csv_Runtime r) = None ->
  load_data (Some rows) = None.
Proof.
  intros Hin Hnone. unfold load_data, load_data_body. simpl.
  destruct (mapM _ rows) as [e|minutes] eqn:Hm; [reflexivity|].
  exfalso. apply (mapM_fails _ rows r Hin) in Hm; [exact Hm|].
  intros b. rewrite Hnone. discriminate.
Qed.

Lemma load_data_fails_on_unparsable_runtime_witness :
  load_data (Some [csv_movie "A" 1994 "142 min" "Drama" (93 # 10);
                   csv_movie "B" 1957 "N/A min" "Crime, Drama" (9 # 1)])
  = None.
Proof.
  apply (load_data_fails_on_unparsable_runtime _
           (csv_movie "B" 1957 "N/A min" "Crime, Drama" (9 # 1))).
  - right. left. reflexivity.
  - reflexivity.
Defined.

(** ** Rounding and the mean *)

Lemma round_half_even_comp (q q' : Q) :
  (q == q')%Q -> round_half_even q = round_half_even q'.
Proof.
  intros Heq. unfold round_half_even.
  rewrite (Qfloor_comp q q' Heq).
  assert (Hc : Qcompare (q - inject_Z (Qfloor q')) (1 # 2)
               = Qcompare (q' - inject_Z (Qfloor q')) (1 # 2)).
  { apply Qcompare_comp; [|reflexivity].
    unfold Qminus. apply Qplus_comp; [exact Heq | reflexivity]. }
  now rewrite Hc.
Qed.

Lemma round_half_even_near (q : Q) :
  (Qabs (inject_Z (round_half_even q) - q) <= 1 # 2)%Q.
Proof.
  pose proof (Qfloor_le q) as Hlo. pose proof (Qlt_floor q) as Hhi.
  rewrite inject_Z_plus in Hhi. change (inject_Z 1) with 1%Q in Hhi.
  apply Qabs_Qle_condition. unfold round_half_even.
  destruct (Qcompare_spec (q - inject_Z (Qfloor q)) (1 # 2)) as [He|Hl|Hg];
    [destruct (Z.even (Qfloor q))| |];
    rewrite ?inject_Z_plus; change (inject_Z 1) with 1%Q; split; lra.
Qed.

Lemma round_half_even_Z (q : Q) (z : Z) :
  (q == inject_Z z)%Q -> round_half_even q = z.
Proof.
  intros Heq. rewrite (round_half_even_comp _ _ Heq).
  unfold round_half_even. rewrite Qfloor_Z.
  destruct (Qcompare_spec (inject_Z z - inject_Z z) (1 # 2)) as [He|Hl|Hg];
    [lra | reflexivity | lra].
Qed.

Lemma somes_perm {A : Type} (l l' : list (option A)) :
  Permutation l l' -> Permutation (somes l) (somes l').
Proof.
  induction 1 as [|x l l' _ IH|x y l|l l' l'' _ IH1 _ IH2]; simpl.
  - constructor.
  - destruct x; [now constructor | exact IH].
  - destruct x, y; try apply Permutation_refl. apply perm_swap.
  - now apply perm_trans with (somes l').
Qed.

(** The cells with a value are as many as the rows that have one. *)
Lemma count_ratings (df : DataFrame) :
  List.length (somes (map IMDB_Rating df)) = List.length (filter has_rating df).
Proof.
  induction df as [|r df IH]; [reflexivity|].
  cbn [map somes filter]. unfold has_rating at 1.
  destruct (IMDB_Rating r); cbn [List.length]; now rewrite IH.
Qed.

Lemma count_runtimes (df : DataFrame) :
  List.length (somes (map Runtime_Minutes df))
  = List.length (filter has_runtime df).
Proof.
  induction df as [|r df IH]; [reflexivity|].
  cbn [map somes filter]. unfold has_runtime at 1.
  destruct (Runtime_Minutes r); cbn [List.length]; now rewrite IH.
Qed.

Lemma count_somes_perm {A : Type} (l l' : list (option A)) :
  Permutation l l' -> List.length (somes l) = List.length (somes l').
Proof. intros Hp. now apply Permutation_length, somes_perm. Qed.

(** ** Sorted permutations of a frame without ties *)

Lemma tie_sym (a b : Row) : tie a b -> tie b a.
Proof. intros [H1 H2]. now split. Qed.

Lemma NoTies_perm (l l' : DataFrame) :
  Permutation l l' -> NoTies l -> NoTies l'.
Proof.
  unfold NoTies.
  induction 1 as [|x l l' Hp IH|x y l|l l' l'' _ IH1 _ IH2]; intros Hnt.
  - exact Hnt.
  - inversion Hnt as [|? ? Hx Hl]; subst. constructor; auto.
    now apply (Permutation_Forall Hp).
  - inversion Hnt as [|? ? Hy Hl]; subst.
    inversion Hl as [|? ? Hx Hl']; subst.
    inversion Hy as [|? ? Hyx Hyl]; subst.
    constructor; [|now constructor].
    constructor; [|exact Hx].
    intros Ht. now apply Hyx, tie_sym.
  - auto.
Qed.

Lemma sorted_perm_unique (l1 l2 : DataFrame) :
  StronglySorted by_rating_desc l1 -> StronglySorted by_rating_desc l2 ->
  Permutation l1 l2 -> NoTies l1 -> l1 = l2.
Proof.
  revert l2. induction l1 as [|x l1 IH]; intros l2 Hs1 Hs2 Hp Hnt.
  - now apply Permutation_nil in Hp.
  - destruct l2 as [|y l2];
      [apply Permutation_sym, Permutation_nil in Hp; discriminate|].
    inversion Hs1 as [|? ? Hs1' Hx]; subst.
    inversion Hs2 as [|? ? Hs2' Hy]; subst.
    inversion Hnt as [|? ? Hntx Hnt']; subst.
    assert (Hxy : x = y).
    { assert (Hyin : In y (x :: l1))
        by (apply (Permutation_in y (Permutation_sym Hp)); now left).
      destruct Hyin as [Heq|Hyin]; [exact Heq|].
      assert (Hxin : In x (y :: l2))
        by (apply (Permutation_in x Hp); now left).
      destruct Hxin as [Heq|Hxin]; [now symmetry|].
      exfalso.
      rewrite Forall_forall in Hx, Hy, Hntx.
      apply (Hntx y Hyin). split; [now apply Hx | now apply Hy]. }
    subst y. f_equal.
    apply IH; auto. now apply Permutation_cons_inv in Hp.
Qed.

(** ** The ranked page *)

Lemma rank_and_page_nonempty `{SortValues} (filtered_df : DataFrame)
    (display_count : DisplayCount) :
  filtered_df <> [] ->
  rank_and_page filtered_df display_count
  = {| found := List.length filtered_df;
       no_match_warning := false;
       display_df := match display_count with
                     | Count k => head k (sort_values filtered_df)
                     | All => sort_values filtered_df
                     end;
       statistics := Some (summary (sort_values filtered_df)) |}.
Proof.
  intros Hne. unfold rank_and_page.
  pose proof (Permutation_length (sort_values_perm filtered_df)) as Hlen.
  destruct filtered_df as [|r df]; [congruence|].
  cbn [List.length Nat.eqb]. rewrite <- Hlen. reflexivity.
Qed.

Lemma rank_and_page_empty `{SortValues} (display_count : DisplayCount) :
  rank_and_page [] display_count = no_match_page.
Proof. reflexivity. Qed.

Lemma head_nonneg (k : Z) (df : DataFrame) :
  0 <= k -> head k df = firstn (Z.to_nat k) df.
Proof. intros Hk. unfold head. now apply Z.leb_le in Hk as ->. Qed.

Lemma head_negative (k : Z) (df : DataFrame) :
  k < 0 -> head k df = firstn (List.length df - Z.to_nat (- k)) df.
Proof.
  intros Hk. unfold head. apply Z.leb_gt in Hk as Hk'. rewrite Hk'.
  f_equal. lia.
Qed.



(** ** Summary statistics *)

(** On a frame without ties every [sort_values] returns the same frame. *)
Lemma sort_values_no_ties `{SortValues} (df : DataFrame) :
  NoTies df -> sort_values df = stable_sort df.
Proof.
  intros Hnt.
  apply sorted_perm_unique.
  - apply Sorted_StronglySorted; [exact by_rating_desc_trans|].
    apply sort_values_sorted.
  - apply Sorted_StronglySorted; [exact by_rating_desc_trans|].
    apply (@sort_values_sorted StableSort).
  - apply perm_trans with df.
    + apply Permutation_sym, sort_values_perm.
    + apply (@sort_values_perm StableSort).
  - apply (NoTies_perm df); [apply sort_values_perm | exact Hnt].
Qed.

Lemma NoTies_A_B_F : NoTies [movie_A; movie_B; movie_F].
Proof.
  unfold NoTies.
  repeat constructor; intros [H1 H2]; cbn in H1, H2;
    (apply Qle_bool_iff in H1; discriminate H1)
    || (apply Qle_bool_iff in H2; discriminate H2).
Qed.

(** C5, as stated, fails: for the ratings 9, 8.5 and 7.5 the exact mean is
    25/3; [mean] returns the binary64 number 4691249611844267 / 2^49, which
    is not 25/3, and the average shown is 8.3, which is not 25/3 either. *)
Lemma average_rating_is_rounded :
  (exact_mean [9 # 1; 85 # 10; 75 # 10] == 25 # 3)%Q /\
  ~ (B64.value 4691249611844267 (-49) == 25 # 3)%Q /\
  ~ (83 # 10 == 25 # 3)%Q /\
  forall S : SortValues,
    rating_mean
      (map IMDB_Rating (@sort_values S [movie_A; movie_B; movie_F]))
    = S754_finite false 4691249611844267 (-49) /\
    exists st,
      statistics (@rank_and_page S [movie_A; movie_B; movie_F] All) = Some st /\
      average_rating st = ShownNumber false 83.
Proof.
  split; [reflexivity|]. split; [discriminate|]. split; [discriminate|].
  intros S. rewrite rank_and_page_nonempty by discriminate. cbn [statistics].
  rewrite (sort_values_no_ties _ NoTies_A_B_F).
  split; [vm_compute; reflexivity|].
  eexists. split; [reflexivity|]. vm_compute. reflexivity.
Qed.

(** C5, amended. For a non-empty filtered frame and every limit, the
    summary is computed over all filtered records, not over the page, so
    it is the summary of the page without a limit. The average rating
    shown is the binary64 mean of the ratings, which is their binary64 sum
    in the ranked order divided by the number of records that have a
    rating, rounded to one decimal place. The average runtime shown is the
    binary64 sum of the runtimes divided by the number of records that have
    a runtime, rounded to minutes: a record without a runtime adds nothing
    to the sum and is not counted, and when no record has a runtime the
    average is nan. The total is the number of filtered records. *)
Theorem statistics_over_filtered_set `{SortValues} (filtered_df : DataFrame)
    (display_count : DisplayCount) :
  filtered_df <> [] ->
  exists st,
    statistics (rank_and_page filtered_df display_count) = Some st /\
    statistics (rank_and_page filtered_df All) = Some st /\
    average_rating st
    = format_1f
        (nanmean
           (numpy_sum (rating_values (map IMDB_Rating (sort_values filtered_df))))
           (List.length (filter has_rating filtered_df))) /\
    average_runtime st
    = format_0f
        (nanmean
           (runtime_sum (map Runtime_Minutes (sort_values filtered_df)))
           (List.length (filter has_runtime filtered_df))) /\
    (filter has_runtime filtered_df = [] -> average_runtime st = ShownNan) /\
    total_movies st = List.length filtered_df.
Proof.
  intros Hne. rewrite !(rank_and_page_nonempty _ _ Hne). cbn [statistics].
  eexists. split; [reflexivity|]. split; [reflexivity|].
  pose proof (sort_values_perm filtered_df) as Hp.
  assert (Hrating : average_rating (summary (sort_values filtered_df))
                    = format_1f
                        (nanmean
                           (numpy_sum
                              (rating_values
                                 (map IMDB_Rating (sort_values filtered_df))))
                           (List.length (filter has_rating filtered_df)))).
  { unfold summary, rating_mean. cbn [average_rating].
    rewrite <- (count_somes_perm _ _ (Permutation_map IMDB_Rating Hp)).
    now rewrite count_ratings. }
  assert (Hruntime : average_runtime (summary (sort_values filtered_df))
                     = format_0f
                         (nanmean
                            (runtime_sum
                               (map Runtime_Minutes (sort_values filtered_df)))
                            (List.length (filter has_runtime filtered_df)))).
  { unfold summary, runtime_mean. cbn [average_runtime].
    rewrite <- (count_somes_perm _ _ (Permutation_map Runtime_Minutes Hp)).
    now rewrite count_runtimes. }
  split; [exact Hrating|]. split; [exact Hruntime|]. split.
  - intros Hnone. rewrite Hruntime, Hnone. reflexivity.
  - unfold summary. cbn [total_movies]. symmetry.
    now apply Permutation_length.
Qed.

Lemma statistics_over_filtered_set_witness :
  exists st,
    statistics (@rank_and_page StableSort [movie_A; movie_D; movie_C] (Count 1))
    = Some st /\
    average_rating st = ShownNumber false 80 /\
    average_runtime st = ShownNumber false 110 /\
    total_movies st = 3%nat.
Proof.
  destruct (@statistics_over_filtered_set StableSort
              [movie_A; movie_D; movie_C] (Count 1))
    as (st & Hst & _ & Hrating & Hruntime & _ & Htotal); [discriminate|].
  exists st. split; [exact Hst|]. split; [|split].
  - rewrite Hrating. vm_compute. reflexivity.
  - rewrite Hruntime. vm_compute. reflexivity.
  - exact Htotal.
Defined.

(** The mean of the ratings 8.0 and 8.1 is shown as 8.1: the binary64 sum
    16.1 is above the decimal, and so is its half above 8.05. *)
Example average_rating_8_0_and_8_1 :
  format_1f (rating_mean [Some (8 # 1); Some (81 # 10)]) = ShownNumber false 81.
Proof. vm_compute. reflexivity. Qed.

(** The mean of the single runtime 2^63 - 1 is shown as 2^63, the nearest
    binary64 number. *)
Example average_runtime_int64_max :
  format_0f (runtime_mean [Some (2 ^ 63 - 1)]) = ShownNumber false (2 ^ 63).
Proof. vm_compute. reflexivity. Qed.

(** A frame in which no record has a rating shows nan. *)
Example average_rating_no_rating :
  format_1f (rating_mean [None; None]) = ShownNan.
Proof. reflexivity. Qed.

(** ** Runs of [main] *)

Lemma main_load_failure `{SortValues} source selected_genres runtime_option
    selected_decades display_count :
  load_data source = None ->
  main source selected_genres runtime_option selected_decades display_count
  = Stopped.
Proof. intros Hload. unfold main. now rewrite Hload. Qed.

(** C6. When the criteria match no record of a loaded catalog, the run of
    [main] renders the no-match page: no records, the count 0, the warning
    and no statistics. This state is told apart from both others: a run
    whose load fails stops and renders nothing, and a run whose criteria
    match a record renders a page with a count above 0, no warning and the
    statistics. *)
Theorem main_zero_matches `{SortValues} source df genres selected_genres
    runtime_option selected_decades display_count :
  load_data source = Some (df, genres) ->
  filter_movies df selected_genres (max_runtime_of runtime_option)
    selected_decades = [] ->
  main source selected_genres runtime_option selected_decades display_count
  = Rendered no_match_page /\
  display_df no_match_page = [] /\
  found no_match_page = 0%nat /\
  no_match_warning no_match_page = true /\
  statistics no_match_page = None /\
  (forall failing genres' runtime' decades',
      load_data failing = None ->
      main failing genres' runtime' decades' display_count = Stopped) /\
  (forall genres' runtime' decades',
      filter_movies df genres' (max_runtime_of runtime') decades' <> [] ->
      exists page,
        main source genres' runtime' decades' display_count = Rendered page /\
        found page
        = List.length (filter_movies df genres' (max_runtime_of runtime') decades') /\
        (0 < found page)%nat /\
        no_match_warning page = false /\
        statistics page <> None).
Proof.
  intros Hload Hnone. unfold main. rewrite Hload, Hnone.
  rewrite rank_and_page_empty. repeat split.
  - intros failing genres' runtime' decades' Hfail. now rewrite Hfail.
  - intros genres' runtime' decades' Hsome.
    rewrite (rank_and_page_nonempty _ _ Hsome).
    eexists. split; [reflexivity|]. cbn [found no_match_warning statistics].
    repeat split; try discriminate.
    destruct (filter_movies df genres' (max_runtime_of runtime') decades');
      [congruence | simpl; lia].
Qed.

Lemma main_zero_matches_witness :
  @main StableSort catalog_source ["Western"%string] AnyLength [] (Count 10)
  = Rendered no_match_page.
Proof.
  refine (proj1 (@main_zero_matches StableSort catalog_source _ _
                   ["Western"%string] AnyLength [] (Count 10) eq_refl eq_refl)).
Defined.

(** The end-to-end example of the specification, on the frame of the three
    records: the genre [Drama] under the ceiling of 150 minutes leaves the
    record A, and its page shows A and the statistics of A. *)
Example end_to_end :
  filter_movies [movie_A; movie_B; movie_C] ["Drama"%string] (Some 150) []
  = [movie_A] /\
  @rank_and_page StableSort [movie_A] (Count 10)
  = {| found := 1; no_match_warning := false; display_df := [movie_A];
       statistics := Some {| average_rating := ShownNumber false 90;
                             average_runtime := ShownNumber false 120;
                             most_common_decade := Some 1990;
                             total_movies := 1 |} |}.
Proof. split; reflexivity. Qed.

(** Without a ceiling the record without a runtime is kept. *)
Example genre_only_keeps_missing_runtime :
  filter_movies [movie_A; movie_B; movie_C] ["Drama"%string] None []
  = [movie_A; movie_C].
Proof. reflexivity. Qed.

(** * Further properties of the code *)

(** ** Notions for the loader *)

(** A row of the loaded frame without its two derived columns. *)
Definition csv_of_row (r : Row) : CsvRow :=
  {| csv_Series_Title := Series_Title r;
     csv_Released_Year := Released_Year r;
     csv_Runtime := Runtime r;
     csv_Genre := Genre r;
     csv_IMDB_Rating := IMDB_Rating r |}.

Fixpoint string_forallb (p : ascii -> bool) (s : string) : bool :=
  match s with
  | EmptyString => true
  | String c t => p c && string_forallb p t
  end.

(** The text is empty or starts with a character that is no digit. *)
Definition no_leading_digit (s : string) : bool :=
  match s with
  | EmptyString => true
  | String c _ => negb (PyStr.isdigit c)
  end.

(** Strings in ascending order of code points. *)
Definition string_lt (a b : string) : Prop := String.compare a b = Lt.

(** ** The loaded frame, row by row *)

Lemma load_data_rows (rows : list CsvRow) df genres :
  load_data (Some rows) = Some (df, genres) ->
  Forall2 (fun c r => exists n,
               astype_int (str_extract (csv_Runtime c)) = inr n /\
               r = add_columns c n) rows df.
Proof.
  intros Hload.
  apply load_data_Some in Hload as (rows' & minutes & [= <-] & Hm & ->).
  revert minutes Hm. induction rows as [|c rows IH]; intros minutes Hm.
  - constructor.
  - apply mapM_cons_inr in Hm as (n & ns & -> & Hn & Hr).
    simpl. constructor; [now exists n | now apply IH].
Qed.

Lemma Forall2_In_r {A B : Type} (R : A -> B -> Prop) (l : list A) (l' : list B) b :
  Forall2 R l l' -> In b l' -> exists a, In a l /\ R a b.
Proof.
  induction 1 as [|x y l l' Hxy _ IH]; simpl; [contradiction|].
  intros [<-|Hin].
  - exists x. auto.
  - destruct (IH Hin) as (a & Ha & HR). exists a. auto.
Qed.

Lemma loaded_row (source : option (list CsvRow)) df genres r :
  load_data source = Some (df, genres) -> In r df ->
  exists rows c n,
    source = Some rows /\ In c rows /\
    astype_int (str_extract (csv_Runtime c)) = inr n /\
    r = add_columns c n.
Proof.
  intros Hload Hin. destruct source as [rows|]; [|discriminate].
  destruct (Forall2_In_r _ _ _ _ (load_data_rows rows df genres Hload) Hin)
    as (c & Hc & n & Hn & ->).
  now exists rows, c, n.
Qed.

(** X1. In a loaded frame the decade of a row whose year has a magnitude
    of at most [2 ^ 53] is the multiple of ten at or below its year and
    less than ten years below it; a row without a year has no decade. *)
Theorem load_data_decade (source : option (list CsvRow)) df genres r :
  load_data source = Some (df, genres) -> In r df ->
  match Released_Year r with
  | Some y =>
      - 2 ^ 53 <= y <= 2 ^ 53 ->
      exists d, Decade r = Some d /\ d mod 10 = 0 /\ d <= y < d + 10
  | None => Decade r = None
  end.
Proof.
  intros Hload Hin.
  destruct (loaded_row _ _ _ _ Hload Hin) as (rows & c & n & _ & _ & _ & ->).
  cbn [Released_Year Decade add_columns].
  destruct (csv_Released_Year c) as [y|]; cbn [decade_of option_map];
    [|reflexivity].
  intros Hy. exists (y / 10 * 10).
  pose proof (Z.mod_pos_bound y 10 ltac:(lia)) as Hb.
  pose proof (Z.div_mod y 10 ltac:(lia)) as Hd.
  assert (H53 : 2 ^ 53 = 9007199254740992) by reflexivity.
  assert (H63 : 2 ^ 63 = 9223372036854775808) by reflexivity.
  assert (H64 : 2 ^ 64 = 18446744073709551616) by reflexivity.
  split; [|split; [apply Z.mod_mul; lia | lia]].
  f_equal. unfold wrap_int64. rewrite Z.mod_small; lia.
Qed.

Lemma load_data_decade_witness :
  exists d, Decade (add_columns (csv_movie "A" 1994 "120 min" "Drama" (9 # 1)) 120)
            = Some d /\ d mod 10 = 0 /\ d <= 1994 < d + 10.
Proof.
  refine (load_data_decade catalog_source _ _ _ eq_refl (or_introl eq_refl) _).
  split; [apply Z.leb_le | apply Z.leb_le]; reflexivity.
Defined.

Lemma digit_value_bounds (c : ascii) :
  PyStr.isdigit c = true -> 0 <= PyStr.digit_value c <= 9.
Proof.
  unfold PyStr.isdigit, PyStr.digit_value. cbv zeta. intros H.
  apply andb_true_iff in H as [H1 H2].
  apply Nat.leb_le in H1. apply Nat.leb_le in H2.
  generalize dependent (nat_of_ascii c). intros k H1 H2. lia.
Qed.

Lemma int_of_digits_acc_nonneg (s : string) (acc : Z) :
  string_forallb PyStr.isdigit s = true -> 0 <= acc ->
  0 <= PyStr.int_of_digits_acc acc s.
Proof.
  revert acc. induction s as [|c s IH];
    cbn [PyStr.int_of_digits_acc string_forallb]; intros acc Hd Hacc;
    [exact Hacc|].
  apply andb_true_iff in Hd as [Hc Hs]. apply IH; [exact Hs|].
  pose proof (digit_value_bounds c Hc). lia.
Qed.

Lemma take_digits_all (s : string) :
  string_forallb PyStr.isdigit (PyStr.take_digits s) = true.
Proof.
  induction s as [|c s IH]; simpl; [reflexivity|].
  destruct (PyStr.isdigit c) eqn:Hc; simpl; [now rewrite Hc|reflexivity].
Qed.

Lemma search_digits_all (s d : string) :
  PyStr.search_digits s = Some d ->
  d <> EmptyString /\ string_forallb PyStr.isdigit d = true.
Proof.
  induction s as [|c s IH]; simpl; [discriminate|].
  destruct (PyStr.isdigit c) eqn:Hc; [|exact IH].
  intros [= <-]. split; [discriminate|]. simpl. now rewrite Hc, take_digits_all.
Qed.

(** X2. Every runtime of a loaded frame is a number of minutes between 0
    and the largest 64-bit integer. *)
Theorem load_data_runtime_bounds (source : option (list CsvRow)) df genres r :
  load_data source = Some (df, genres) -> In r df ->
  exists n, Runtime_Minutes r = Some n /\ 0 <= n <= int64_max.
Proof.
  intros Hload Hin.
  destruct (loaded_row _ _ _ _ Hload Hin) as (rows & c & n & _ & _ & Hn & ->).
  exists n. split; [reflexivity|].
  apply astype_int_inr in Hn as (d & Hd & -> & Hle). split; [|exact Hle].
  unfold str_extract in Hd. destruct (csv_Runtime c) as [s|]; [|discriminate].
  apply search_digits_all in Hd as [_ Hall].
  now apply int_of_digits_acc_nonneg.
Qed.

Lemma load_data_runtime_bounds_witness :
  exists n, Runtime_Minutes
              (add_columns (csv_movie "B" 2003 "95 min" "Comedy" (85 # 10)) 95)
            = Some n /\ 0 <= n <= int64_max.
Proof.
  exact (load_data_runtime_bounds catalog_source _ _ _ eq_refl
           (or_intror (or_introl eq_refl))).
Defined.

(** ** The runtime text *)

Lemma search_digits_skip (pre rest : string) :
  string_forallb (fun c => negb (PyStr.isdigit c)) pre = true ->
  PyStr.search_digits (pre ++ rest) = PyStr.search_digits rest.
Proof.
  induction pre as [|c pre IH]; cbn [append string_forallb PyStr.search_digits];
    [reflexivity|].
  intros H. apply andb_true_iff in H as [Hc Hpre].
  apply negb_true_iff in Hc. rewrite Hc. now apply IH.
Qed.

Lemma take_digits_run (ds post : string) :
  string_forallb PyStr.isdigit ds = true -> no_leading_digit post = true ->
  PyStr.take_digits (ds ++ post) = ds.
Proof.
  intros Hds Hpost. induction ds as [|c ds IH];
    cbn [append string_forallb] in *.
  - destruct post as [|c post]; [reflexivity|].
    cbn [PyStr.take_digits]. cbn [no_leading_digit] in Hpost.
    apply negb_true_iff in Hpost. now rewrite Hpost.
  - apply andb_true_iff in Hds as [Hc Hds].
    cbn [PyStr.take_digits]. rewrite Hc. f_equal. now apply IH.
Qed.

(** X4. Only the first run of digits of a [Runtime] cell is read: the text
    before it and everything from the first character after it on play no
    part, so the cell "2h 22min" is read as 2 minutes. *)
Theorem runtime_first_digit_run (pre ds post : string) :
  string_forallb (fun c => negb (PyStr.isdigit c)) pre = true ->
  ds <> EmptyString ->
  string_forallb PyStr.isdigit ds = true ->
  no_leading_digit post = true ->
  str_extract (Some (pre ++ ds ++ post)%string) = Some ds /\
  astype_int (str_extract (Some (pre ++ ds ++ post)%string))
  = if PyStr.int_of_digits ds <=? int64_max
    then inr (PyStr.int_of_digits ds) else inl OverflowError.
Proof.
  intros Hpre Hne Hds Hpost.
  assert (Hx : str_extract (Some (pre ++ ds ++ post)%string) = Some ds).
  { cbn [str_extract]. rewrite (search_digits_skip _ _ Hpre).
    destruct ds as [|c ds]; [congruence|].
    cbn [append string_forallb PyStr.search_digits] in *.
    apply andb_true_iff in Hds as [Hc Hds]. rewrite Hc.
    now rewrite (take_digits_run _ _ Hds Hpost). }
  split; [exact Hx|]. rewrite Hx. reflexivity.
Qed.

Lemma runtime_first_digit_run_witness :
  astype_int (str_extract (Some "2h 22min"%string)) = inr 2.
Proof.
  exact (proj2 (runtime_first_digit_run "" "2" "h 22min"
                  eq_refl ltac:(discriminate) eq_refl eq_refl)).
Defined.

(** ** The genre vocabulary *)

Lemma ascii_compare_lt_trans (a b c : ascii) :
  Ascii.compare a b = Lt -> Ascii.compare b c = Lt -> Ascii.compare a c = Lt.
Proof.
  unfold Ascii.compare. rewrite !N.compare_lt_iff. apply N.lt_trans.
Qed.

Lemma string_lt_trans (x y z : string) :
  string_lt x y -> string_lt y z -> string_lt x z.
Proof.
  unfold string_lt. revert y z.
  induction x as [|a x IH]; intros [|b y] [|c z]; cbn [String.compare];
    try congruence.
  destruct (Ascii.compare a b) eqn:Hab; try discriminate;
    destruct (Ascii.compare b c) eqn:Hbc; try discriminate; intros Hxy Hyz.
  - apply Ascii.compare_eq_iff in Hab, Hbc. subst.
    assert (Hcc : Ascii.compare c c = Eq)
      by (unfold Ascii.compare; apply N.compare_refl).
    rewrite Hcc. now apply (IH y z).
  - apply Ascii.compare_eq_iff in Hab. subst. now rewrite Hbc.
  - apply Ascii.compare_eq_iff in Hbc. subst. now rewrite Hab.
  - now rewrite (ascii_compare_lt_trans a b c Hab Hbc).
Qed.

Lemma string_lt_irrefl (x : string) : ~ string_lt x x.
Proof.
  unfold string_lt. intros H.
  pose proof (String.compare_antisym x x) as Ha. rewrite H in Ha. discriminate.
Qed.

Lemma insert_sorted_In (x z : string) (l : list string) :
  In z (PyStr.insert_sorted x l) <-> z = x \/ In z l.
Proof.
  induction l as [|y r IH]; cbn [PyStr.insert_sorted].
  - simpl. intuition.
  - destruct (String.compare x y) eqn:Hc.
    + apply String.compare_eq_iff in Hc. subst. simpl. intuition.
    + simpl. intuition.
    + cbn [In]. rewrite IH. intuition.
Qed.

Lemma insert_sorted_hd (x y : string) (l : list string) :
  string_lt y x -> HdRel string_lt y l ->
  HdRel string_lt y (PyStr.insert_sorted x l).
Proof.
  intros Hyx Hhd. destruct l as [|z r]; cbn [PyStr.insert_sorted].
  - now constructor.
  - destruct (String.compare x z); [exact Hhd | now constructor|].
    constructor. now inversion Hhd.
Qed.

Lemma insert_sorted_Sorted (x : string) (l : list string) :
  Sorted string_lt l -> Sorted string_lt (PyStr.insert_sorted x l).
Proof.
  induction 1 as [|y r Hs IH Hhd]; cbn [PyStr.insert_sorted].
  - repeat constructor.
  - destruct (String.compare x y) eqn:Hc.
    + now constructor.
    + constructor; [now constructor | now constructor].
    + constructor; [exact IH|]. apply insert_sorted_hd; [|exact Hhd].
      unfold string_lt. rewrite String.compare_antisym, Hc. reflexivity.
Qed.

Lemma sorted_set_In (z : string) (l : list string) :
  In z (PyStr.sorted_set l) <-> In z l.
Proof.
  induction l as [|x r IH]; cbn [PyStr.sorted_set fold_right]; [reflexivity|].
  fold (PyStr.sorted_set r). rewrite insert_sorted_In, IH. simpl. intuition.
Qed.

Lemma sorted_set_Sorted (l : list string) : Sorted string_lt (PyStr.sorted_set l).
Proof.
  induction l as [|x r IH]; cbn [PyStr.sorted_set fold_right]; [constructor|].
  now apply insert_sorted_Sorted.
Qed.

Lemma StronglySorted_lt_NoDup (l : list string) :
  StronglySorted string_lt l -> NoDup l.
Proof.
  induction 1 as [|x l Hs IH Hall]; constructor; [|exact IH].
  intros Hin. rewrite Forall_forall in Hall.
  exact (string_lt_irrefl x (Hall x Hin)).
Qed.

Lemma all_genres_In (g : string) (rows : list CsvRow) :
  In g (all_genres rows) <->
  exists c s, In c rows /\ csv_Genre c = Some s /\ In g (genre_tokens s).
Proof.
  unfold all_genres. rewrite in_flat_map. split.
  - intros (c & Hc & Hg). destruct (csv_Genre c) as [s|] eqn:Hs; [|contradiction].
    now exists c, s.
  - intros (c & s & Hc & Hs & Hg). exists c. rewrite Hs. auto.
Qed.

(** X5. The genre list [load_data] returns is in strictly ascending order
    of code points, so it repeats no genre, and it holds exactly the
    trimmed pieces of the [Genre] cells that are not missing. *)
Theorem load_data_vocabulary (rows : list CsvRow) df genres :
  load_data (Some rows) = Some (df, genres) ->
  StronglySorted string_lt genres /\
  NoDup genres /\
  (forall g, In g genres <->
             exists c s, In c rows /\ csv_Genre c = Some s /\
                         In g (genre_tokens s)).
Proof.
  intros Hload. unfold load_data, load_data_body in Hload. simpl in Hload.
  destruct (mapM _ rows) as [e|minutes]; simpl in Hload; [discriminate|].
  injection Hload as _ <-.
  assert (Hs : StronglySorted string_lt (PyStr.sorted_set (all_genres rows))).
  { apply Sorted_StronglySorted; [|apply sorted_set_Sorted].
    intros x y z. apply string_lt_trans. }
  split; [exact Hs|]. split; [now apply StronglySorted_lt_NoDup|].
  intros g. rewrite sorted_set_In. apply all_genres_In.
Qed.

Lemma load_data_vocabulary_witness :
  NoDup ["Drama"; "Music"; "Musical"; "Romance"]%string.
Proof.
  exact (proj1 (proj2 (load_data_vocabulary
           [csv_movie "W" 2014 "106 min" "Drama, Music" (85 # 10);
            csv_movie "M" 1952 "103 min" "Musical, Romance" (83 # 10)]
           _ _ eq_refl))).
Defined.

(** X6. Loading drops, adds and reorders no row and changes no cell:
    without its two derived columns the loaded frame is the source frame. *)
Theorem load_data_keeps_rows (rows : list CsvRow) df genres :
  load_data (Some rows) = Some (df, genres) ->
  map csv_of_row df = rows.
Proof.
  intros Hload. pose proof (load_data_rows rows df genres Hload) as Hall.
  clear Hload.
  induction Hall as [|c r cs rs (n & _ & ->) _ IH]; [reflexivity|].
  cbn [map]. rewrite IH. now destruct c.
Qed.

Lemma load_data_keeps_rows_witness :
  map csv_of_row
    [add_columns (csv_movie "A" 1994 "120 min" "Drama" (9 # 1)) 120;
     add_columns (csv_movie "B" 2003 "95 min" "Comedy" (85 # 10)) 95]
  = [csv_movie "A" 1994 "120 min" "Drama" (9 # 1);
     csv_movie "B" 2003 "95 min" "Comedy" (85 # 10)].
Proof.
  exact (load_data_keeps_rows _ _ ["Comedy"; "Drama"]%string
           (eq_refl : load_data catalog_source = Some (_, _))).
Defined.

(** ** The shape of a genre *)

Definition starts_with_space (s : string) : bool :=
  match s with
  | EmptyString => false
  | String c _ => PyStr.isspace c
  end.

Fixpoint ends_with_space (s : string) : bool :=
  match s with
  | EmptyString => false
  | String c EmptyString => PyStr.isspace c
  | String _ t => ends_with_space t
  end.

Definition no_comma (s : string) : bool :=
  string_forallb (fun c => negb (Ascii.eqb c ","%char)) s.

Lemma load_data_genres (rows : list CsvRow) df genres :
  load_data (Some rows) = Some (df, genres) ->
  genres = PyStr.sorted_set (all_genres rows).
Proof.
  intros Hload. unfold load_data, load_data_body in Hload. simpl in Hload.
  destruct (mapM _ rows) as [e|minutes]; simpl in Hload; [discriminate|].
  now injection Hload as _ <-.
Qed.

Lemma lstrip_no_leading_space (s : string) :
  starts_with_space (PyStr.lstrip s) = false.
Proof.
  induction s as [|c s IH]; cbn [PyStr.lstrip]; [reflexivity|].
  destruct (PyStr.isspace c) eqn:Hc; [exact IH|]. exact Hc.
Qed.

Lemma rstrip_keeps_head (s : string) :
  starts_with_space s = false -> starts_with_space (PyStr.rstrip s) = false.
Proof.
  destruct s as [|c s]; [reflexivity|]. cbn [PyStr.rstrip starts_with_space].
  intros Hc. destruct (PyStr.rstrip s); [now rewrite Hc | exact Hc].
Qed.

Lemma rstrip_no_trailing_space (s : string) :
  ends_with_space (PyStr.rstrip s) = false.
Proof.
  induction s as [|c s IH]; cbn [PyStr.rstrip]; [reflexivity|].
  destruct (PyStr.rstrip s) as [|y r] eqn:Hr.
  - destruct (PyStr.isspace c) eqn:Hc; [reflexivity | exact Hc].
  - exact IH.
Qed.

Lemma string_forallb_append (p : ascii -> bool) (a b : string) :
  string_forallb p (a ++ b) = string_forallb p a && string_forallb p b.
Proof.
  induction a as [|c a IH]; cbn [append string_forallb]; [reflexivity|].
  now rewrite IH, andb_assoc.
Qed.

Lemma string_forallb_occurs_in (p : ascii -> bool) (t s : string) :
  occurs_in t s -> string_forallb p s = true -> string_forallb p t = true.
Proof.
  intros (a & b & ->). rewrite !string_forallb_append, !andb_true_iff.
  tauto.
Qed.

Lemma split_no_sep (sep : ascii) (s piece : string) :
  In piece (PyStr.split sep s) ->
  string_forallb (fun c => negb (Ascii.eqb c sep)) piece = true.
Proof.
  revert piece. induction s as [|c s IH]; cbn [PyStr.split]; intros piece Hin.
  - now destruct Hin as [<-|[]].
  - destruct (Ascii.eqb c sep) eqn:Hc.
    + destruct Hin as [<-|Hin]; [reflexivity | now apply IH].
    + destruct (PyStr.split sep s) as [|h r].
      * destruct Hin as [<-|[]]. cbn [string_forallb]. now rewrite Hc.
      * destruct Hin as [<-|Hin].
        -- cbn [string_forallb]. rewrite Hc. apply IH. now left.
        -- apply IH. now right.
Qed.

(** X7. A genre of the vocabulary holds no comma and neither starts nor
    ends with a whitespace character. *)
Theorem load_data_genre_shape (rows : list CsvRow) df genres g :
  load_data (Some rows) = Some (df, genres) -> In g genres ->
  no_comma g = true /\
  starts_with_space g = false /\
  ends_with_space g = false.
Proof.
  intros Hload Hg. rewrite (load_data_genres _ _ _ Hload) in Hg.
  apply sorted_set_In, all_genres_In in Hg as (c & s & _ & _ & Hg).
  unfold genre_tokens in Hg. apply in_map_iff in Hg as (piece & <- & Hpiece).
  split; [|split].
  - apply (string_forallb_occurs_in _ _ piece (strip_occurs_in piece)).
    now apply (split_no_sep ","%char s).
  - apply rstrip_keeps_head, lstrip_no_leading_space.
  - apply rstrip_no_trailing_space.
Qed.

Lemma load_data_genre_shape_witness :
  no_comma "Musical" = true /\
  starts_with_space "Musical" = false /\
  ends_with_space "Musical" = false.
Proof.
  refine (load_data_genre_shape
            [csv_movie "W" 2014 "106 min" "Drama, Music" (85 # 10);
             csv_movie "M" 1952 "103 min" "Musical, Romance" (83 # 10)]
            _ _ "Musical"%string eq_refl _).
  right. right. left. reflexivity.
Defined.

(** ** More on the filter *)

Definition has_genre (r : Row) : bool :=
  match Genre r with
  | Some _ => true
  | None => false
  end.

Lemma prefix_occurs (p s : string) :
  prefix p s = true -> exists b, s = (p ++ b)%string.
Proof.
  revert s. induction p as [|x p IH]; intros s; cbn [prefix].
  - intros _. now exists s.
  - destruct s as [|y s]; [discriminate|].
    cbn [prefix]. destruct (ascii_dec x y) as [<-|Hne]; intros Hp;
      [|discriminate Hp].
    destruct (IH s Hp) as [b ->]. now exists b.
Qed.

Lemma contains_iff (p s : string) :
  PyStr.contains p s = true <-> occurs_in p s.
Proof.
  split; [|apply contains_occurs_in].
  induction s as [|c s IH]; cbn [PyStr.contains]; intros H;
    apply orb_true_iff in H as [H|H]; try discriminate.
  - apply prefix_occurs in H as [b ->]. now exists EmptyString, b.
  - apply prefix_occurs in H as [b ->]. now exists EmptyString, b.
  - now apply occurs_in_cons, IH.
Qed.

Lemma cell_eqb_eq (a b : option Z) : cell_eqb a b = true <-> a = b.
Proof.
  destruct a as [x|], b as [y|]; simpl; try (split; congruence).
  rewrite Z.eqb_eq. split; congruence.
Qed.

Lemma isin_In (x : option Z) (values : list (option Z)) :
  isin x values = true <-> In x values.
Proof.
  unfold isin. rewrite existsb_exists. split.
  - intros (v & Hv & He). apply cell_eqb_eq in He. now subst.
  - intros Hin. exists x. split; [exact Hin | now apply cell_eqb_eq].
Qed.

Lemma genre_mask_iff (selected_genres : list string) (x : option string) :
  genre_mask selected_genres x = true <->
  exists s genre, x = Some s /\ In genre selected_genres /\ occurs_in genre s.
Proof.
  destruct x as [s|]; cbn [genre_mask].
  - rewrite existsb_exists. split.
    + intros (genre & Hin & Hc). exists s, genre. now rewrite <- contains_iff.
    + intros (s' & genre & [= <-] & Hin & Hc). exists genre.
      now rewrite contains_iff.
  - split; [discriminate|]. now intros (s & genre & [=] & _).
Qed.

Lemma runtime_mask_iff (m : Z) (x : option Z) :
  runtime_mask (Some m) x = true <-> exists n, x = Some n /\ n <= m.
Proof.
  destruct x as [n|]; cbn [runtime_mask].
  - rewrite Z.leb_le. split; [intros H; now exists n|].
    now intros (n' & [= <-] & H).
  - split; [discriminate|]. now intros (n & [=] & _).
Qed.

Lemma truthy_list_iff {A : Type} (l : list A) : truthy_list l = true <-> l <> [].
Proof. destruct l; simpl; split; congruence. Qed.

(** X8. What [filter_movies] returns, read as one condition: a row of the
    frame is returned exactly when, if genres are selected, its [Genre] is
    present and holds one of them as a piece of text; if a ceiling other
    than 0 is given, its runtime is present and at most the ceiling; and
    if decades are selected, its decade is one of them. *)
Theorem filter_movies_In df selected_genres max_runtime selected_decades r :
  In r (filter_movies df selected_genres max_runtime selected_decades) <->
  In r df /\
  (selected_genres <> [] ->
   exists s genre, Genre r = Some s /\ In genre selected_genres /\
                   occurs_in genre s) /\
  (forall m, max_runtime = Some m -> m <> 0 ->
             exists n, Runtime_Minutes r = Some n /\ n <= m) /\
  (selected_decades <> [] -> In (Decade r) selected_decades).
Proof.
  rewrite filter_movies_passes, filter_In, passes_true_iff.
  rewrite !truthy_list_iff, genre_mask_iff, isin_In.
  assert (Hrun :
    (truthy_int max_runtime = true ->
     runtime_mask max_runtime (Runtime_Minutes r) = true) <->
    (forall m, max_runtime = Some m -> m <> 0 ->
               exists n, Runtime_Minutes r = Some n /\ n <= m)).
  { destruct max_runtime as [m|]; cbn [truthy_int].
    - rewrite negb_true_iff, Z.eqb_neq, runtime_mask_iff. split.
      + intros H m' [= <-]. exact H.
      + intros H Hm. now apply (H m).
    - split; [intros _ m [=] | discriminate]. }
  rewrite Hrun. reflexivity.
Qed.

Lemma filter_idem {A : Type} (f : A -> bool) (l : list A) :
  filter f (filter f l) = filter f l.
Proof.
  rewrite filter_twice. apply filter_ext. intros x. now destruct (f x).
Qed.

(** X9. Filtering a second time with the same criteria changes nothing,
    when no genre is selected or the first result has a row. *)
Theorem filter_movies_idempotent df selected_genres max_runtime selected_decades :
  genre_step_selects_rows
    (filter_movies df selected_genres max_runtime selected_decades)
    selected_genres ->
  filter_movies
    (filter_movies df selected_genres max_runtime selected_decades)
    selected_genres max_runtime selected_decades
  = filter_movies df selected_genres max_runtime selected_decades.
Proof. intros _. rewrite !filter_movies_passes. apply filter_idem. Qed.

Lemma filter_movies_idempotent_witness :
  filter_movies
    (filter_movies [movie_A; movie_B; movie_C] ["Drama"%string] (Some 150) [])
    ["Drama"%string] (Some 150) []
  = filter_movies [movie_A; movie_B; movie_C] ["Drama"%string] (Some 150) [].
Proof.
  apply filter_movies_idempotent. left. discriminate.
Defined.

(** X10. Criteria can be applied in steps and in any order, as long as each
    call with a genre selection is given a frame with a row: filtering by
    one set of criteria and then by another gives the same frame as the
    other way round, and filtering by genre, by runtime and by decade in
    three separate calls gives the frame of the single call. *)
Theorem filter_movies_compose df g1 m1 d1 g2 m2 d2 :
  genre_step_selects_rows (filter_movies df g2 m2 d2) g1 ->
  genre_step_selects_rows (filter_movies df g1 m1 d1) g2 ->
  filter_movies (filter_movies df g1 m1 d1) g2 m2 d2
  = filter_movies (filter_movies df g2 m2 d2) g1 m1 d1 /\
  filter_movies (filter_movies (filter_movies df g1 None []) [] m1 []) [] None d1
  = filter_movies df g1 m1 d1.
Proof.
  intros _ _. rewrite !filter_movies_passes, !filter_twice. split.
  - apply filter_ext. intros r. apply andb_comm.
  - apply filter_ext. intros r. unfold passes.
    cbn [truthy_list truthy_int negb orb]. rewrite !andb_true_r.
    now destruct (negb (truthy_list g1) || genre_mask g1 (Genre r)),
      (negb (truthy_int m1) || runtime_mask m1 (Runtime_Minutes r)).
Qed.

Lemma filter_movies_compose_witness :
  filter_movies (filter_movies [movie_A; movie_B; movie_C] ["Drama"%string] None [])
    [] (Some 150) []
  = filter_movies (filter_movies [movie_A; movie_B; movie_C] [] (Some 150) [])
      ["Drama"%string] None [].
Proof.
  refine (proj1 (filter_movies_compose [movie_A; movie_B; movie_C]
                   ["Drama"%string] None [] [] (Some 150) [] _ _)).
  - left. discriminate.
  - right. reflexivity.
Defined.

Lemma existsb_same {A : Type} (f : A -> bool) (l l' : list A) :
  (forall x, In x l <-> In x l') -> existsb f l = existsb f l'.
Proof.
  intros Hsame. apply eq_true_iff_eq. rewrite !existsb_exists.
  split; intros (x & Hin & Hf); exists x; split; auto; now apply Hsame.
Qed.

Lemma truthy_list_same {A : Type} (l l' : list A) :
  (forall x, In x l <-> In x l') -> truthy_list l = truthy_list l'.
Proof.
  intros Hsame. destruct l as [|x l], l' as [|y l']; try reflexivity.
  - destruct (proj2 (Hsame y) (or_introl eq_refl)).
  - destruct (proj1 (Hsame x) (or_introl eq_refl)).
Qed.

(** X11. Only the set of selected genres and the set of selected decades
    count: selections with the same members, in any order and with any
    repetitions, give the same frame. *)
Theorem filter_movies_selection_set df genres genres' max_runtime decades decades' :
  (forall g, In g genres <-> In g genres') ->
  (forall d, In d decades <-> In d decades') ->
  filter_movies df genres max_runtime decades
  = filter_movies df genres' max_runtime decades'.
Proof.
  intros Hg Hd. rewrite !filter_movies_passes. apply filter_ext. intros r.
  unfold passes, genre_mask, isin.
  rewrite (truthy_list_same _ _ Hg), (truthy_list_same _ _ Hd).
  rewrite (existsb_same _ _ _ Hd).
  destruct (Genre r) as [s|]; [|reflexivity].
  now rewrite (existsb_same _ _ _ Hg).
Qed.

Lemma filter_movies_selection_set_witness :
  filter_movies [movie_A; movie_B; movie_C] ["Drama"; "Comedy"; "Drama"]%string
    None [Some 1990]
  = filter_movies [movie_A; movie_B; movie_C] ["Comedy"; "Drama"]%string
      None [Some 1990; Some 1990].
Proof.
  apply filter_movies_selection_set; intros x; simpl; tauto.
Defined.

(** X12. When every decade that occurs in the frame is selected, the
    decade filter removes nothing (for a frame with a row, or with no
    genre selected). *)
Theorem filter_movies_all_decades df selected_genres max_runtime selected_decades :
  genre_step_selects_rows df selected_genres ->
  (forall r, In r df -> In (Decade r) selected_decades) ->
  filter_movies df selected_genres max_runtime selected_decades
  = filter_movies df selected_genres max_runtime [].
Proof.
  intros _ Hall. rewrite !filter_movies_passes. apply filter_ext_in.
  intros r Hin. unfold passes. cbn [truthy_list negb orb].
  rewrite (proj2 (isin_In _ _) (Hall r Hin)). now rewrite orb_true_r.
Qed.

Lemma filter_movies_all_decades_witness :
  filter_movies [movie_A; movie_B; movie_C] [] None [Some 2000; Some 1990]
  = filter_movies [movie_A; movie_B; movie_C] [] None [].
Proof.
  apply filter_movies_all_decades.
  - left. discriminate.
  - intros r [<-|[<-|[<-|[]]]]; simpl; tauto.
Defined.

(** ** The vocabulary as a selection *)

Lemma genre_tokens_nonempty (s : string) : genre_tokens s <> [].
Proof.
  unfold genre_tokens.
  destruct (split_head_prefix ","%char s) as (h & r & b & Hsplit & _).
  rewrite Hsplit. discriminate.
Qed.

Lemma loaded_genre_in_vocabulary source df genres r s :
  load_data source = Some (df, genres) -> In r df -> Genre r = Some s ->
  forall g, In g (genre_tokens s) -> In g genres.
Proof.
  intros Hload Hin Hs g Hg.
  destruct (loaded_row _ _ _ _ Hload Hin) as (rows & c & n & -> & Hc & _ & ->).
  rewrite (load_data_genres _ _ _ Hload).
  apply sorted_set_In, all_genres_In. now exists c, s.
Qed.

(** X13. Selecting the whole vocabulary of a loaded catalog keeps exactly
    the rows that have a [Genre]; with an empty vocabulary nothing is
    selected and every row is kept. *)
Theorem select_whole_vocabulary (source : option (list CsvRow)) df genres :
  load_data source = Some (df, genres) ->
  filter_movies df genres None []
  = match genres with
    | [] => df
    | _ :: _ => filter has_genre df
    end.
Proof.
  intros Hload. destruct genres as [|g0 genres']; [reflexivity|].
  rewrite filter_movies_passes. apply filter_ext_in. intros r Hin.
  unfold passes, has_genre. cbn [truthy_list truthy_int negb orb andb].
  rewrite !andb_true_r.
  destruct (Genre r) as [s|] eqn:Hs; [|reflexivity].
  apply genre_mask_iff.
  destruct (genre_tokens s) as [|t ts] eqn:Ht;
    [now destruct (genre_tokens_nonempty s)|].
  exists s, t. split; [reflexivity|]. split.
  - apply (loaded_genre_in_vocabulary _ _ _ _ _ Hload Hin Hs).
    rewrite Ht. now left.
  - apply genre_token_occurs_in. rewrite Ht. now left.
Qed.

Lemma select_whole_vocabulary_witness :
  filter_movies
    [add_columns (csv_movie "A" 1994 "120 min" "Drama" (9 # 1)) 120;
     add_columns (csv_movie "B" 2003 "95 min" "Comedy" (85 # 10)) 95]
    ["Comedy"; "Drama"]%string None []
  = filter has_genre
      [add_columns (csv_movie "A" 1994 "120 min" "Drama" (9 # 1)) 120;
       add_columns (csv_movie "B" 2003 "95 min" "Comedy" (85 # 10)) 95].
Proof.
  exact (select_whole_vocabulary catalog_source _ _ eq_refl).
Defined.

(** X14. A [Genre] cell with an empty piece, as in "Drama,", puts the empty
    genre into the vocabulary, and a selection that holds the empty genre
    keeps every row that has a [Genre]. *)
Theorem empty_genre_selects_all (rows : list CsvRow) df genres c s selected :
  load_data (Some rows) = Some (df, genres) ->
  In c rows -> csv_Genre c = Some s -> In EmptyString (genre_tokens s) ->
  In EmptyString selected ->
  In EmptyString genres /\
  filter_movies df selected None [] = filter has_genre df.
Proof.
  intros Hload Hc Hs Htok Hsel. split.
  - rewrite (load_data_genres _ _ _ Hload).
    apply sorted_set_In, all_genres_In. now exists c, s.
  - rewrite filter_movies_passes. apply filter_ext. intros r.
    unfold passes, has_genre.
    rewrite (truthy_list_true selected) by (intros ->; contradiction).
    cbn [truthy_list truthy_int negb orb andb]. rewrite !andb_true_r.
    destruct (Genre r) as [s'|]; [|reflexivity].
    apply genre_mask_iff. exists s', EmptyString.
    split; [reflexivity|]. split; [exact Hsel|]. now exists EmptyString, s'.
Qed.

Lemma empty_genre_selects_all_witness :
  In EmptyString ["" ; "Drama"]%string.
Proof.
  exact (proj1 (empty_genre_selects_all
                  [csv_movie "A" 1994 "120 min" "Drama," (9 # 1)] _ _
                  (csv_movie "A" 1994 "120 min" "Drama," (9 # 1)) "Drama,"
                  [EmptyString] eq_refl (or_introl eq_refl) eq_refl
                  (or_intror (or_introl eq_refl)) (or_introl eq_refl))).
Defined.

(** ** The page and the run of [main] *)

Lemma firstn_In {A : Type} (n : nat) (l : list A) (x : A) :
  In x (firstn n l) -> In x l.
Proof.
  intros Hin. rewrite <- (firstn_skipn n l). apply in_or_app. now left.
Qed.

Lemma head_In (k : Z) (df : DataFrame) (r : Row) :
  In r (head k df) -> In r df.
Proof. unfold head. destruct (0 <=? k); apply firstn_In. Qed.

Lemma head_length (k : Z) (df : DataFrame) :
  (List.length (head k df) <= List.length df)%nat.
Proof. unfold head. destruct (0 <=? k); rewrite length_firstn; lia. Qed.

Lemma display_In `{SortValues} (filtered_df : DataFrame)
    (display_count : DisplayCount) (r : Row) :
  In r (display_df (rank_and_page filtered_df display_count)) ->
  In r filtered_df.
Proof.
  destruct filtered_df as [|x l] eqn:Hf; [intros []|]. rewrite <- Hf.
  rewrite rank_and_page_nonempty by (rewrite Hf; discriminate).
  cbn [display_df]. intros Hin.
  apply (Permutation_in r (Permutation_sym (sort_values_perm filtered_df))).
  destruct display_count as [k|]; [now apply head_In in Hin | exact Hin].
Qed.

(** X15. The page and its figures fit together for every frame and every
    limit: the header counts all filtered records, the page holds no more
    records than that and only filtered ones, the warning is shown exactly
    for an empty result, the summary is missing exactly then, and the
    total in the summary is the count of the header. *)
Theorem rank_and_page_counts `{SortValues} (filtered_df : DataFrame)
    (display_count : DisplayCount) :
  let page := rank_and_page filtered_df display_count in
  found page = List.length filtered_df /\
  (List.length (display_df page) <= found page)%nat /\
  (forall r, In r (display_df page) -> In r filtered_df) /\
  (no_match_warning page = true <-> filtered_df = []) /\
  (statistics page = None <-> filtered_df = []) /\
  (forall st, statistics page = Some st -> total_movies st = found page).
Proof.
  intros page. split; [|split; [|split; [apply display_In|]]].
  - subst page. unfold rank_and_page. now destruct filtered_df.
  - subst page. destruct filtered_df as [|x l] eqn:Hf; [simpl; lia|].
    rewrite <- Hf. rewrite rank_and_page_nonempty by (rewrite Hf; discriminate).
    cbn [display_df found].
    pose proof (Permutation_length (sort_values_perm filtered_df)) as Hlen.
    destruct display_count as [k|]; [|lia].
    pose proof (head_length k (sort_values filtered_df)). lia.
  - subst page. destruct filtered_df as [|x l] eqn:Hf.
    + repeat split; auto; discriminate.
    + rewrite <- Hf.
      rewrite rank_and_page_nonempty by (rewrite Hf; discriminate).
      cbn [no_match_warning statistics found].
      repeat split; try discriminate; try (rewrite Hf; discriminate).
      intros st [= <-]. cbn [summary total_movies].
      symmetry. apply Permutation_length, sort_values_perm.
Qed.

Lemma StronglySorted_app_inv (l1 l2 : DataFrame) :
  StronglySorted by_rating_desc (l1 ++ l2) ->
  forall a b, In a l1 -> In b l2 -> by_rating_desc a b.
Proof.
  induction l1 as [|x l1 IH]; cbn [app]; intros Hs a b Ha Hb; [destruct Ha|].
  inversion Hs as [|? ? Hs' Hall]; subst.
  destruct Ha as [<-|Ha].
  - rewrite Forall_forall in Hall. apply Hall, in_or_app. now right.
  - now apply (IH Hs').
Qed.

(** X16. With a limit [k >= 0] the page shows the best rated records: the
    page followed by the records left off is a rearrangement of the
    filtered records, and every record on the page has a rating at least
    as high as every record left off (a record without a rating counts
    as lowest). *)
Theorem page_outranks_rest `{SortValues} (filtered_df : DataFrame) (k : Z) :
  filtered_df <> [] -> 0 <= k ->
  let page := display_df (rank_and_page filtered_df (Count k)) in
  let rest := skipn (Z.to_nat k) (display_df (rank_and_page filtered_df All)) in
  Permutation filtered_df (page ++ rest) /\
  (forall a b, In a page -> In b rest -> by_rating_desc a b).
Proof.
  intros Hne Hk page rest. subst page rest.
  rewrite !(rank_and_page_nonempty _ _ Hne). cbn [display_df].
  rewrite (head_nonneg _ _ Hk).
  pose proof (Sorted_StronglySorted by_rating_desc_trans
                (sort_values_sorted filtered_df)) as Hs.
  rewrite <- (firstn_skipn (Z.to_nat k) (sort_values filtered_df)) in Hs.
  split; [|now apply StronglySorted_app_inv].
  rewrite firstn_skipn. apply sort_values_perm.
Qed.

Lemma page_outranks_rest_witness :
  Permutation [movie_C; movie_B; movie_A]
    (display_df (@rank_and_page StableSort [movie_C; movie_B; movie_A] (Count 2))
     ++ skipn 2 (display_df
                   (@rank_and_page StableSort [movie_C; movie_B; movie_A] All))).
Proof.
  refine (proj1 (@page_outranks_rest StableSort
                   [movie_C; movie_B; movie_A] 2 _ _)).
  - discriminate.
  - lia.
Defined.

(** X17. A run of [main] stops exactly when the load fails. Otherwise the
    header counts the rows of the loaded frame that pass the criteria, and
    every record on the page is such a row. *)
Theorem main_shows_matching_rows `{SortValues} (source : option (list CsvRow))
    selected_genres runtime_option selected_decades display_count :
  match main source selected_genres runtime_option selected_decades
          display_count with
  | Stopped => load_data source = None
  | Rendered page =>
      exists df genres,
        load_data source = Some (df, genres) /\
        found page
        = List.length
            (filter (passes selected_genres (max_runtime_of runtime_option)
                       selected_decades) df) /\
        forall r, In r (display_df page) ->
                  In r df /\
                  passes selected_genres (max_runtime_of runtime_option)
                    selected_decades r = true
  end.
Proof.
  unfold main. destruct (load_data source) as [[df genres]|]; [|reflexivity].
  exists df, genres. split; [reflexivity|].
  rewrite filter_movies_passes. split.
  - unfold rank_and_page. now destruct (filter _ df).
  - intros r Hin. apply display_In in Hin. now apply filter_In in Hin.
Qed.

(** X18. Both runtime choices other than "Any length" put a ceiling on
    every record shown, "Under 2 hours (< 120 min)" the ceiling 120 and
    the slider its value between 60 and 300; the ceiling itself is
    allowed, so a record of exactly 120 minutes that meets the other
    criteria is kept under "Under 2 hours (< 120 min)". *)
Theorem runtime_option_ceiling `{SortValues} (source : option (list CsvRow))
    selected_genres runtime_option selected_decades display_count page m :
  main source selected_genres runtime_option selected_decades display_count
  = Rendered page ->
  (runtime_option = UnderTwoHours /\ m = 120) \/
  (runtime_option = CustomMax m /\ 60 <= m <= 300) ->
  (forall r, In r (display_df page) ->
             exists n, Runtime_Minutes r = Some n /\ n <= m) /\
  (forall df r, In r (filter_movies df selected_genres None selected_decades) ->
                Runtime_Minutes r = Some m ->
                In r (filter_movies df selected_genres
                        (max_runtime_of runtime_option) selected_decades)).
Proof.
  intros Hmain Hopt.
  assert (Hm : max_runtime_of runtime_option = Some m /\ m <> 0)
    by (destruct Hopt as [[-> ->]|[-> Hr]]; split; cbn; auto; lia).
  destruct Hm as [Hceil Hm]. rewrite Hceil. split.
  - intros r Hin. unfold main in Hmain.
    destruct (load_data source) as [[df genres]|]; [|discriminate].
    injection Hmain as <-. apply display_In in Hin. rewrite Hceil in Hin.
    now apply (runtime_filter_active _ _ _ _ _ Hm) in Hin as [_ Hin].
  - intros df r Hin Hr. apply (runtime_filter_active _ _ _ _ _ Hm).
    split; [exact Hin|]. exists m. split; [exact Hr | lia].
Qed.

Lemma runtime_option_ceiling_witness :
  exists n,
    Runtime_Minutes
      (add_columns (csv_movie "A" 1994 "120 min" "Drama" (9 # 1)) 120) = Some n /\
    n <= 120.
Proof.
  exact (proj1 (@runtime_option_ceiling StableSort catalog_source []
                  UnderTwoHours [] (Count 10) _ 120 eq_refl
                  (or_introl (conj eq_refl eq_refl)))
           (add_columns (csv_movie "A" 1994 "120 min" "Drama" (9 # 1)) 120)
           (or_introl eq_refl)).
Defined.

(** ** The most common decade *)

(** How many rows of the frame have the decade [v]. *)
Definition decade_count (v : Z) (df : DataFrame) : nat :=
  count_Z v (somes (map Decade df)).

Lemma mode_fold (vs l : list Z) :
  match fold_right
          (fun v best =>
             match best with
             | None => Some v
             | Some b =>
                 if ((count_Z b vs <? count_Z v vs)%nat
                     || ((count_Z b vs =? count_Z v vs)%nat && (v <? b)))%bool
                 then Some v else Some b
             end) None l with
  | None => l = []
  | Some b =>
      In b l /\
      forall v, In v l ->
                (count_Z v vs <= count_Z b vs)%nat /\
                (count_Z v vs = count_Z b vs -> b <= v)
  end.
Proof.
  induction l as [|v l IH]; cbn [fold_right]; [reflexivity|].
  destruct (fold_right _ None l) as [b|].
  - destruct IH as [Hb Hall].
    destruct (Nat.ltb_spec (count_Z b vs) (count_Z v vs)) as [E1|E1];
      destruct (Nat.eqb_spec (count_Z b vs) (count_Z v vs)) as [E2|E2];
      destruct (Z.ltb_spec v b) as [E3|E3]; cbn [orb andb];
      (split; [simpl; auto|]); intros w [<-|Hw];
      try destruct (Hall w Hw); split; lia.
  - subst l. split; [now left|]. intros w [<-|[]]. split; lia.
Qed.

Lemma count_Z_perm (v : Z) (l l' : list Z) :
  Permutation l l' -> count_Z v l = count_Z v l'.
Proof.
  unfold count_Z.
  induction 1 as [|x l l' _ IH|x y l|l l' l'' _ IH1 _ IH2]; cbn [filter].
  - reflexivity.
  - destruct (v =? x); cbn [List.length]; now rewrite IH.
  - now destruct (v =? x), (v =? y).
  - congruence.
Qed.

Lemma count_Z_pos (v : Z) (l : list Z) : In v l -> (1 <= count_Z v l)%nat.
Proof.
  unfold count_Z. induction l as [|x l IH]; cbn [filter In]; [contradiction|].
  intros [->|Hin].
  - rewrite Z.eqb_refl. cbn [List.length]. lia.
  - specialize (IH Hin). destruct (v =? x); cbn [List.length]; lia.
Qed.

Lemma count_Z_zero (v : Z) (l : list Z) : ~ In v l -> count_Z v l = 0%nat.
Proof.
  unfold count_Z. induction l as [|x l IH]; cbn [filter In]; [reflexivity|].
  intros Hnot. destruct (Z.eqb_spec v x) as [->|Hne]; [tauto|].
  apply IH. tauto.
Qed.

Lemma somes_In {A : Type} (l : list (option A)) (a : A) :
  In a (somes l) <-> In (Some a) l.
Proof.
  induction l as [|[x|] l IH]; cbn [somes In].
  - reflexivity.
  - rewrite IH. split; intros [H|H]; auto; left; congruence.
  - rewrite IH. split; [auto|]. intros [H|H]; [discriminate | exact H].
Qed.

Lemma mode_first_spec (col : list (option Z)) :
  match mode_first col with
  | None => forall x, In x col -> x = None
  | Some b =>
      In (Some b) col /\
      forall v, (count_Z v (somes col) <= count_Z b (somes col))%nat /\
                (count_Z v (somes col) = count_Z b (somes col) -> b <= v)
  end.
Proof.
  unfold mode_first. pose proof (mode_fold (somes col) (somes col)) as Hm.
  cbv zeta. destruct (fold_right _ None (somes col)) as [b|].
  - destruct Hm as [Hb Hall]. split; [now apply somes_In|]. intros v.
    destruct (in_dec Z.eq_dec v (somes col)) as [Hv|Hv]; [now apply Hall|].
    rewrite (count_Z_zero v _ Hv). pose proof (count_Z_pos b _ Hb). lia.
  - intros [x|] Hx; [|reflexivity].
    apply somes_In in Hx. rewrite Hm in Hx. destruct Hx.
Qed.

(** X20. The most common decade of the summary is the decade of a filtered
    record, no decade has more filtered records, and of the decades with
    as many records it is the earliest; it is missing only when no
    filtered record has a decade. *)
Theorem most_common_decade_is_mode `{SortValues} (filtered_df : DataFrame)
    (display_count : DisplayCount) (st : Statistics) :
  statistics (rank_and_page filtered_df display_count) = Some st ->
  match most_common_decade st with
  | Some b =>
      (exists r, In r filtered_df /\ Decade r = Some b) /\
      forall v, (decade_count v filtered_df <= decade_count b filtered_df)%nat /\
                (decade_count v filtered_df = decade_count b filtered_df ->
                 b <= v)
  | None => forall r, In r filtered_df -> Decade r = None
  end.
Proof.
  intros Hst.
  assert (Hne : filtered_df <> [])
    by (intros ->; discriminate).
  rewrite (rank_and_page_nonempty _ _ Hne) in Hst. cbn [statistics] in Hst.
  injection Hst as <-. cbn [summary most_common_decade].
  pose proof (sort_values_perm filtered_df) as Hp.
  pose proof (mode_first_spec (map Decade (sort_values filtered_df))) as Hm.
  assert (Hcount : forall v,
             count_Z v (somes (map Decade (sort_values filtered_df)))
             = decade_count v filtered_df).
  { intros v. unfold decade_count. symmetry.
    apply count_Z_perm, somes_perm, Permutation_map, Hp. }
  destruct (mode_first _) as [b|].
  - destruct Hm as [Hb Hall]. split.
    + apply in_map_iff in Hb as (r & Hr & Hin). exists r.
      split; [|exact Hr]. now apply (Permutation_in r (Permutation_sym Hp)).
    + intros v. rewrite <- !Hcount. apply Hall.
  - intros r Hin. apply Hm, in_map, (Permutation_in r Hp), Hin.
Qed.

Lemma most_common_decade_is_mode_witness :
  match most_common_decade
          (summary (stable_sort [movie_A; movie_B; movie_C])) with
  | Some b =>
      (exists r, In r [movie_A; movie_B; movie_C] /\ Decade r = Some b) /\
      forall v,
        (decade_count v [movie_A; movie_B; movie_C]
         <= decade_count b [movie_A; movie_B; movie_C])%nat /\
        (decade_count v [movie_A; movie_B; movie_C]
         = decade_count b [movie_A; movie_B; movie_C] -> b <= v)
  | None => forall r, In r [movie_A; movie_B; movie_C] -> Decade r = None
  end.
Proof.
  exact (@most_common_decade_is_mode StableSort [movie_A; movie_B; movie_C]
           All _ eq_refl).
Defined.
